(** * LOOK backend: the price-prediction model and the analysis endpoint

    A shallow embedding of [backend/models/price_prediction.py] and of the
    [analyze_token] route of [backend/app.py], with the properties of the
    analysis pipeline proved (or refuted) on it.

    Numbers are IEEE 754 binary64 values, Rocq's primitive [float]: the
    arithmetic of Python floats and of numpy's [float64], with its NaN,
    its infinities and its signed zeros.  The entries of a torch
    [float32] tensor are the binary64 values that binary32 has.  Python
    exceptions are values of [exn], carried by the result type [py]. *)

From Stdlib Require Import Floats String ZArith Lia Bool PeanoNat List.
From Stdlib Require Import DecimalString.
Import ListNotations.

#[local] Set Warnings "-inexact-float".

(** ** Python: exceptions and results *)

Module Py.

(** The exception classes the modelled code can meet.  All of them derive
    from Python's [Exception], so an [except Exception] clause catches
    every value of this type. *)
Inductive exn : Type :=
| ValueError (msg : string)
| TypeError (msg : string)
| IndexError (msg : string)
| RuntimeError (msg : string)
| AttributeError (msg : string)
| HTTPException (status_code : nat) (detail : string)
| OtherException (cls : string) (msg : string).

Definition str_of_nat (n : nat) : string :=
  NilZero.string_of_uint (Nat.to_uint n).

(** [str(e)].  Starlette's [HTTPException.__str__] prints the status
    and the detail; the built-in classes print their message. *)
Definition str (e : exn) : string :=
  match e with
  | ValueError m | TypeError m | IndexError m
  | RuntimeError m | AttributeError m => m
  | HTTPException s d => (str_of_nat s ++ ": " ++ d)%string
  | OtherException _ m => m
  end.

(** The outcome of evaluating an expression or a call. *)
Inductive py (A : Type) : Type :=
| Returned (a : A)
| Raised (e : exn).

Arguments Returned {A} a.
Arguments Raised {A} e.

Definition bind {A B : Type} (c : py A) (k : A -> py B) : py B :=
  match c with
  | Returned a => k a
  | Raised e => Raised e
  end.

(** [try: c  except Exception as e: h e]. *)
Definition try_except {A : Type} (c : py A) (h : exn -> py A) : py A :=
  match c with
  | Returned a => Returned a
  | Raised e => h e
  end.

(** The values stored in the dictionaries the model returns. *)
Inductive value : Type :=
| VFloat (f : float)
| VStr (s : string)
| VStrList (l : list string).

(** A dictionary literal, in the order its keys are written. *)
Definition dict (V : Type) : Type := list (string * V).

Definition keys {V : Type} (d : dict V) : list string := map fst d.

(** [d.get(k, default)]. *)
Fixpoint get {V : Type} (d : dict V) (k : string) (default : V) : V :=
  match d with
  | [] => default
  | (k', v) :: rest => if String.eqb k k' then v else get rest k default
  end.

End Py.

Declare Scope py_scope.
Delimit Scope py_scope with py.
Notation "x <- c ;; k" := (Py.bind c (fun x => k))
  (at level 61, c at next level, right associativity) : py_scope.

(** ** The C library's elementary functions

    [np.log] and [torch.sigmoid] end in the platform's [log] and [exp].
    Their values at ordinary arguments differ between platforms in the
    last place, so they are taken as they come; what IEEE 754 and C99
    Annex F fix, the special cases, is written out below. *)

Class Libm : Type := {
  libm_log : float -> float;   (* used at positive finite arguments *)
  libm_exp : float -> float    (* used at finite arguments *)
}.

(** ** numpy on one-dimensional [float64] arrays *)

Module Numpy.

Local Open Scope float_scope.

Definition ndarray : Type := list float.

(** The length of an array as a [float64], as numpy's true division
    converts the element count (exact below 2^53). *)
Fixpoint float_of_nat (n : nat) : float :=
  match n with
  | O => 0
  | S k => float_of_nat k + 1
  end.

(** [np.zeros(n)]. *)
Definition zeros (n : nat) : ndarray := repeat 0 n.

(** [np.sum] of a one-dimensional array is [np.add.reduce]: the
    reduction starts from [0.0] and adds to it the pairwise sum of the
    elements, numpy's [DOUBLE_pairwise_sum].

    Fewer than eight elements are added from left to right, to a zero
    (its sign is of no account for [np.sum], since the loop's result is
    added to the reduction's [0.0]). *)
Definition short_sum (a : ndarray) : float := fold_left add a 0.

(** From eight elements on the loop is unrolled: eight partial sums,
    [r[j] += a[i + j]] for each full block of eight. *)
Fixpoint add_into (r block : list float) : list float :=
  match r, block with
  | x :: r', y :: block' => (x + y) :: add_into r' block'
  | _, _ => r
  end.

(** [((r[0] + r[1]) + (r[2] + r[3])) + ((r[4] + r[5]) + (r[6] + r[7]))] *)
Definition join8 (r : list float) : float :=
  match r with
  | [r0; r1; r2; r3; r4; r5; r6; r7] =>
      ((r0 + r1) + (r2 + r3)) + ((r4 + r5) + (r6 + r7))
  | _ => 0
  end.

(** The blocks after the first, then the [n % 8] elements left over,
    which are added one by one to the joined partial sums. *)
Fixpoint unrolled (r a : list float) : float :=
  match a with
  | a0 :: a1 :: a2 :: a3 :: a4 :: a5 :: a6 :: a7 :: rest =>
      unrolled (add_into r [a0; a1; a2; a3; a4; a5; a6; a7]) rest
  | _ => fold_left add a (join8 r)
  end.

(** The branch for [8 <= n <= 128]: the partial sums start as the first
    eight elements. *)
Definition block_sum (a : ndarray) : float :=
  unrolled (firstn 8 a) (skipn 8 a).

(** Above 128 elements the array is cut in two, the first part of
    [n / 2] elements less [(n / 2) % 8], and the sums of the parts are
    added.  [fuel] bounds the depth of the cuts; the length of the array
    is enough ([pairwise_sum_fuel] below). *)
Fixpoint pairwise_sum (fuel : nat) (a : ndarray) : float :=
  let n := length a in
  if (n <? 8)%nat then short_sum a
  else if (n <=? 128)%nat then block_sum a
  else
    match fuel with
    | O => block_sum a
    | S fuel' =>
        let n2 := (n / 2 - (n / 2) mod 8)%nat in
        pairwise_sum fuel' (firstn n2 a) + pairwise_sum fuel' (skipn n2 a)
    end.

Definition sum (a : ndarray) : float := 0 + pairwise_sum (length a) a.

(** [np.mean]: the sum divided by the count; [0.0 / 0.0], that is NaN,
    on an empty array (numpy warns and does not raise). *)
Definition mean (a : ndarray) : float := sum a / float_of_nat (length a).

(** [np.std] with its default [ddof=0]: the square root of the mean of
    the squared deviations from the mean. *)
Definition std (a : ndarray) : float :=
  let m := mean a in
  let dev := map (fun x => x - m) a in
  sqrt (sum (map (fun d => d * d) dev) / float_of_nat (length a)).

(** [np.diff]: [a[i+1] - a[i]]. *)
Fixpoint diff (a : ndarray) : ndarray :=
  match a with
  | x :: ((y :: _) as rest) => (y - x) :: diff rest
  | _ => []
  end.

(** [np.log] on one element: NaN on a NaN or a negative argument (numpy
    warns), minus infinity at zero, plus infinity at plus infinity, and
    the C library's logarithm otherwise. *)
Definition log1 `{Libm} (x : float) : float :=
  if is_nan x then nan
  else if x <? 0 then nan
  else if x =? 0 then neg_infinity
  else if x =? infinity then infinity
  else libm_log x.

Definition log `{Libm} (a : ndarray) : ndarray := map log1 a.

(** [a[-k:]] on a list: the last [k] elements, all of them when there
    are fewer. *)
Definition last_n {A : Type} (k : nat) (l : list A) : list A :=
  skipn (length l - k) l.

(** [np.column_stack] of one-dimensional arrays: the arrays become the
    columns of a matrix, given as its list of rows; arrays of different
    lengths raise [ValueError]. *)
Fixpoint rows3 (a b c : ndarray) : list (list float) :=
  match a, b, c with
  | x :: a', y :: b', z :: c' => [x; y; z] :: rows3 a' b' c'
  | _, _, _ => []
  end.

Definition column_stack3 (a b c : ndarray) : Py.py (list (list float)) :=
  if (length a =? length b)%nat && (length b =? length c)%nat
  then Py.Returned (rows3 a b c)
  else Py.Raised (Py.ValueError
         "all the input array dimensions except for the concatenation axis must match exactly").

End Numpy.

(** ** torch tensors, as nested lists *)

Module Torch.

Local Open Scope float_scope.

Definition tensor2 : Type := list (list float).
Definition tensor3 : Type := list (list (list float)).

(** [x.unsqueeze(0)]. *)
Definition unsqueeze0 (m : tensor2) : tensor3 := [m].

(** The shape of a three-dimensional tensor, read off its first
    entries. *)
Definition shape3 (t : tensor3) : list nat :=
  [length t; length (hd [] t); length (hd [] (hd [] t))].

(** Rounding to binary32 (24 bits of precision, exponents up to 127),
    to nearest with ties to even; every binary32 value is a binary64
    value, which is how the result is held. *)
Definition binary32_of (x : spec_float) : spec_float :=
  match x with
  | S754_finite s m e => binary_round 24 128 s m e
  | _ => x
  end.

Definition to_float32 (x : float) : float := SF2Prim (binary32_of (Prim2SF x)).

(** [torch.FloatTensor(m)] of a two-dimensional [float64] array: a
    [float32] tensor of the same shape, each entry rounded. *)
Definition FloatTensor (m : list (list float)) : tensor2 :=
  map (map to_float32) m.

(** [t.std()]: over all the elements, with Bessel's correction (torch's
    default): the squared deviations are summed and divided by
    [max(0, N - 1)].  The formula is evaluated here in binary64 and in
    numpy's order of additions; torch has its own order and rounds to
    binary32, so the value below is torch's only where neither matters:
    for a tensor of one element, where the division is by zero. *)
Definition std (t : tensor2) : float :=
  let a := concat t in
  let m := Numpy.mean a in
  let dev := map (fun x => x - m) a in
  sqrt (Numpy.sum (map (fun d => d * d) dev)
        / Numpy.float_of_nat (length a - 1)).

(** C's [exp], with the special cases of Annex F. *)
Definition exp `{Libm} (x : float) : float :=
  if is_nan x then nan
  else if x =? infinity then infinity
  else if x =? neg_infinity then 0
  else libm_exp x.

(** [torch.sigmoid]: [1 / (1 + exp(-x))]. *)
Definition sigmoid `{Libm} (x : float) : float := 1 / (1 + exp (- x)).

End Torch.

(** ** [backend/models/price_prediction.py] *)

Module PricePrediction.

Import Py.
Local Open Scope float_scope.
Local Open Scope py_scope.

(** [token_data: Dict]: the three series are read with
    [token_data.get(key, [])]. *)
Definition Dict : Type := dict (list float).

(** [class LSTM(nn.Module)].  The recurrent layers and the linear head
    hold weights that torch draws when the module is built; the source
    fixes none of them, so the function they compute, from one sequence
    of feature rows to the scalar of the last time step, is a field. *)
Record LSTM : Type := {
  input_size : nat;
  hidden_size : nat;
  num_layers : nat;
  lstm_fc : list (list float) -> float
}.

(** [x.size(-1)]. *)
Definition size_last (x : Torch.tensor3) : nat :=
  length (hd [] (hd [] x)).

(** [LSTM.forward]: [nn.LSTM] refuses an input whose last dimension is
    not [input_size]; otherwise there is one output row, of one element,
    for each sequence of the batch. *)
Definition forward (self : LSTM) (x : Torch.tensor3) : py Torch.tensor2 :=
  if (size_last x =? input_size self)%nat
  then Returned (map (fun seq => [lstm_fc self seq]) x)
  else Raised (RuntimeError "input.size(-1) must be equal to input_size").

Record PricePredictionModel : Type := { model : LSTM }.

(** [PricePredictionModel.__init__]. *)
Definition __init__ (weights : list (list float) -> float)
  : PricePredictionModel :=
  {| model := {| input_size := 10; hidden_size := 64; num_layers := 2;
                 lstm_fc := weights |} |}.

Definition _normalize (data : Numpy.ndarray) : Numpy.ndarray :=
  if (length data =? 0)%nat then Numpy.zeros 10
  else
    let m := Numpy.mean data in
    let s := Numpy.std data in
    map (fun x => (x - m) / (s + 1e-8)) data.

(** The features are computed by numpy in binary64 and rounded to
    binary32 when [torch.FloatTensor(features)] makes the tensor. *)
Definition _extract_features (token_data : Dict) : py Torch.tensor3 :=
  let price_history := get token_data "price_history" [] in
  let volume_history := get token_data "volume_history" [] in
  let liquidity_data := get token_data "liquidity_data" [] in
  features <- Numpy.column_stack3 (_normalize price_history)
                                  (_normalize volume_history)
                                  (_normalize liquidity_data) ;;
  Returned (Torch.unsqueeze0 (Torch.FloatTensor features)).

Definition _calculate_confidence `{Libm} (prediction : Torch.tensor2)
  : float :=
  Torch.sigmoid (Torch.std prediction).

Definition _analyze_trends (token_data : Dict) : list string :=
  let trends := [] in
  let price_history := get token_data "price_history" [] in
  if (0 <? length price_history)%nat then
    let recent_trend :=
      Numpy.mean (Numpy.diff (Numpy.last_n 5 price_history)) in
    if 0 <? recent_trend then trends ++ ["Upward Trend"%string]
    else if recent_trend <? 0 then trends ++ ["Downward Trend"%string]
    else trends ++ ["Sideways Movement"%string]
  else trends.

Definition _calculate_volatility `{Libm} (token_data : Dict) : float :=
  let price_history := get token_data "price_history" [] in
  if (1 <? length price_history)%nat then
    let returns := Numpy.diff (Numpy.log price_history) in
    Numpy.std returns * sqrt 365
  else 0.

(** [prediction.numpy()[0][0]]. *)
Definition item00 (t : Torch.tensor2) : py float :=
  match t with
  | (x :: _) :: _ => Returned x
  | _ => Raised (IndexError "index 0 is out of bounds")
  end.

(** [PricePredictionModel.predict].  The coroutine has no suspension
    point of its own, so awaiting it is running it; the [print] of the
    handler writes to the log and is left out. *)
Definition predict `{Libm} (self : PricePredictionModel)
    (token_data : Dict) : py (dict value) :=
  try_except
    (features <- _extract_features token_data ;;
     prediction <- forward (model self) features ;;
     predicted_price <- item00 prediction ;;
     Returned [("predicted_price"%string, VFloat predicted_price);
               ("confidence_score"%string,
                  VFloat (_calculate_confidence prediction));
               ("price_trends"%string,
                  VStrList (_analyze_trends token_data));
               ("volatility_index"%string,
                  VFloat (_calculate_volatility token_data))])
    (fun e =>
       Returned [("error"%string, VStr "Price prediction failed");
                 ("details"%string, VStr (str e))]).

End PricePrediction.


(** ** [backend/app.py]: the route [POST /api/v1/analyze] *)

Module App.

Import Py.

(** [class TokenAnalysisRequest(BaseModel)]. *)
Record TokenAnalysisRequest : Type := {
  token_address : string;
  chain_type : string;
  analysis_type : list string
}.

(** The blockchain clients the route builds. *)
Inductive client : Type := SolanaClient | EthereumClient | CosmosClient.

(** What the route does to its collaborators, in the order it does it:
    the objects it builds and the methods it calls. *)
Inductive call : Type :=
| Construct (cls : string)
| GetTokenData (c : client) (address : string)
| Predict
| Evaluate
| Analyze
| Now.

(** A computation that may raise and that leaves a log of calls; the
    calls made before an exception stay in the log. *)
Definition io (A : Type) : Type := list call -> py A * list call.

Definition ret {A : Type} (a : A) : io A := fun log => (Returned a, log).

Definition raise {A : Type} (e : exn) : io A := fun log => (Raised e, log).

Definition bind {A B : Type} (c : io A) (k : A -> io B) : io B :=
  fun log =>
    match c log with
    | (Returned a, log') => k a log'
    | (Raised e, log') => (Raised e, log')
    end.

(** A call to a collaborator: logged, then its outcome. *)
Definition perform {A : Type} (c : call) (r : py A) : io A :=
  fun log => (r, log ++ [c]).

Definition try_except {A : Type} (c : io A) (h : exn -> io A) : io A :=
  fun log =>
    match c log with
    | (Returned a, log') => (Returned a, log')
    | (Raised e, log') => h e log'
    end.

Notation "x <~ c ;; k" := (bind c (fun x => k))
  (at level 61, c at next level, right associativity).

(** A keyword argument of a call. *)
Inductive kwarg : Type :=
| KNat (n : nat)
| KStr (s : string).

Definition kw_nat (kwargs : dict kwarg) (k : string) (default : nat) : nat :=
  match get kwargs k (KNat default) with
  | KNat n => n
  | KStr _ => default
  end.

Definition kw_str (kwargs : dict kwarg) (k : string) : string :=
  match get kwargs k (KStr "") with
  | KStr s => s
  | KNat n => str_of_nat n
  end.

(** [HTTPException(...)] with keyword arguments.  FastAPI's constructor
    is [__init__(self, status_code, detail=None, headers=None)]: a
    keyword it does not have, or no [status_code], is a [TypeError],
    raised by the call itself. *)
Definition HTTPException_params : list string :=
  ["status_code"; "detail"; "headers"]%string.

Definition new_HTTPException (kwargs : dict kwarg) : py exn :=
  match filter (fun k => negb (existsb (String.eqb k) HTTPException_params))
               (keys kwargs) with
  | k :: _ =>
      Raised (TypeError
        ("HTTPException.__init__() got an unexpected keyword argument '"
           ++ k ++ "'")%string)
  | [] =>
      if existsb (String.eqb "status_code") (keys kwargs)
      then Returned (HTTPException (kw_nat kwargs "status_code" 0)
                                   (kw_str kwargs "detail"))
      else Raised (TypeError
        "HTTPException.__init__() missing 1 required positional argument: 'status_code'")
  end.

(** [raise C(...)]: the call is evaluated first. *)
Definition raise_new {A : Type} (e : py exn) : io A :=
  match e with
  | Returned x => raise x
  | Raised x => raise x
  end.

Section Route.

(** The blockchain clients and the risk and behaviour models are
    modules of the repository whose code is not at hand: what their
    constructors and methods return or raise is left open, within the
    types the response model asks for.  A client
    object is truthy, as an object of a class that defines neither
    [__bool__] nor [__len__] is, so [if not client] holds only for the
    [None] of an unknown chain. *)
Variable TokenData : Type.
Variable metadata : TokenData -> dict string.
Variable series : TokenData -> PricePrediction.Dict.
Variable new_client : client -> py unit.
Variable get_token_data : client -> string -> py TokenData.
Variable new_risk_model : py unit.
Variable evaluate : TokenData -> py (dict string).
Variable new_behavior_model : py unit.
Variable analyze : TokenData -> py (list string).
Variable lstm_weights : list (list float) -> float.
Variable datetime_now : nat.
Context `{Libm}.

(** [class TokenAnalysisResponse(BaseModel)]. *)
Record TokenAnalysisResponse : Type := {
  token_metadata : dict string;
  market_performance : dict value;
  risk_assessment : dict string;
  recommendations : list string;
  timestamp : nat
}.

(** The dictionary [clients]; looking a chain up is
    [clients.get(request.chain_type)]. *)
Definition clients : dict (option client) :=
  [("solana"%string, Some SolanaClient);
   ("ethereum"%string, Some EthereumClient);
   ("cosmos"%string, Some CosmosClient)].

Definition analyze_token (request : TokenAnalysisRequest)
  : io TokenAnalysisResponse :=
  try_except
    (_ <~ perform (Construct "SolanaClient") (new_client SolanaClient) ;;
     _ <~ perform (Construct "EthereumClient") (new_client EthereumClient) ;;
     _ <~ perform (Construct "CosmosClient") (new_client CosmosClient) ;;
     match get clients (chain_type request) None with
     | None =>
         raise_new (new_HTTPException
           [("status_code"%string, KNat 400);
            ("message"%string, KStr "Unsupported blockchain type")])
     | Some client =>
         token_data <~ perform (GetTokenData client (token_address request))
                         (get_token_data client (token_address request)) ;;
         price_model <~ perform (Construct "PricePredictionModel")
                          (Returned (PricePrediction.__init__ lstm_weights)) ;;
         _ <~ perform (Construct "RiskAssessmentModel") new_risk_model ;;
         _ <~ perform (Construct "BehavioralAnalysisModel")
                new_behavior_model ;;
         market <~ perform Predict
                     (PricePrediction.predict price_model
                        (series token_data)) ;;
         risk <~ perform Evaluate (evaluate token_data) ;;
         recs <~ perform Analyze (analyze token_data) ;;
         now <~ perform Now (Returned datetime_now) ;;
         ret {| token_metadata := metadata token_data;
                market_performance := market;
                risk_assessment := risk;
                recommendations := recs;
                timestamp := now |}
     end)
    (fun e =>
       raise_new (new_HTTPException
         [("status_code"%string, KNat 500);
          ("detail"%string, KStr (str e))])).

(** The calls that fetch or analyse token data. *)
Definition is_analysis (c : call) : bool :=
  match c with
  | GetTokenData _ _ | Predict | Evaluate | Analyze => true
  | Construct _ | Now => false
  end.

End Route.

Arguments analyze_token {TokenData} metadata series new_client
  get_token_data new_risk_model evaluate new_behavior_model analyze
  lstm_weights datetime_now {_} request _.

End App.

(** ** Classes of binary64 values, used in the statements below *)

Module Sign.

(** The least exponent field of a binary64 number. *)
Definition emin64 : Z := (-1074)%Z.

(** The sign and class of a positive value: a positive finite number or
    plus infinity. *)
Definition SFpos (x : spec_float) : bool :=
  match x with
  | S754_finite false _ _ | S754_infinity false => true
  | _ => false
  end.

(** Zero of either sign, a positive finite number or plus infinity. *)
Definition SFnonneg (x : spec_float) : bool :=
  match x with
  | S754_zero _ => true
  | _ => SFpos x
  end.

(** The same classes, on primitive floats. *)
Definition fpos (x : float) : bool := SFpos (Prim2SF x).

Definition fnonneg (x : float) : bool := SFnonneg (Prim2SF x).

End Sign.

(** ** Sample records *)

Module Samples.

Import Py PricePrediction.
Local Open Scope float_scope.

Definition short_record : Dict :=
  [("price_history"%string, [1]); ("volume_history"%string, [1]);
   ("liquidity_data"%string, [1])].

Definition long_record : Dict :=
  [("price_history"%string, [1; 2; 3; 4; 5; 6; 7; 8; 9; 10; 11; 12]);
   ("volume_history"%string, [1; 2; 3; 4; 5; 6; 7; 8; 9; 10; 11; 12]);
   ("liquidity_data"%string, [1; 2; 3; 4; 5; 6; 7; 8; 9; 10; 11; 12])].

Definition mismatched_record : Dict :=
  [("price_history"%string, [1; 2; 3]); ("volume_history"%string, [1; 2]);
   ("liquidity_data"%string, [1; 2; 3])].




(** Two days of data, the three series apart. *)
Definition two_day_record : Dict :=
  [("price_history"%string, [1; 2]);
   ("volume_history"%string, [10; 30]);
   ("liquidity_data"%string, [5; 5])].

(** A network that takes the three feature columns. *)
Definition three_feature_lstm : LSTM :=
  {| input_size := 3; hidden_size := 64; num_layers := 2;
     lstm_fc := fun _ => 0.5 |}.

(** The shape of what a call returned. *)
Definition returned_shape (r : py Torch.tensor3) : option (list nat) :=
  match r with
  | Returned t => Some (Torch.shape3 t)
  | Raised _ => None
  end.

End Samples.

(** ** [backend/app.py]: the informational routes *)

Module Routes.

Import Py.

(** [GET /]. *)
Definition read_root : dict string :=
  [("status"%string, "ok"%string);
   ("message"%string, "LOOK.AI API Service is running"%string)].

(** One entry of the list [get_supported_chains] returns. *)
Record chain_info : Type := {
  id : string;
  name : string;
  status : string
}.

(** [GET /api/v1/chains]. *)
Definition get_supported_chains : dict (list chain_info) :=
  [("chains"%string,
    [ {| id := "solana"; name := "Solana"; status := "active" |};
      {| id := "ethereum"; name := "Ethereum"; status := "active" |};
      {| id := "cosmos"; name := "Cosmos"; status := "active" |};
      {| id := "polkadot"; name := "Polkadot"; status := "coming_soon" |} ])].

(** The ids the route lists with the status ["active"]. *)
Definition active_chains : list string :=
  map id (filter (fun c => String.eqb (status c) "active")
                 (get get_supported_chains "chains" [])).

End Routes.

(** ** Stand-ins for the collaborators of the route *)

Module Stubs.

Import Py.
Local Open Scope float_scope.

(** A provider whose token data is one fixed record. *)
Definition token : Type := unit.

Definition token_series (_ : token) : PricePrediction.Dict :=
  [("price_history"%string, [1.0; 1.1; 1.2; 1.3; 1.4]);
   ("volume_history"%string, [10; 11; 12; 13; 14]);
   ("liquidity_data"%string, [100; 100; 100; 100; 100])].

Definition token_metadata (_ : token) : dict string :=
  [("symbol"%string, "LOOK"%string)].

Definition clients_ok (_ : App.client) : py unit := Returned tt.

Definition provider_ok (_ : App.client) (_ : string) : py token :=
  Returned tt.

Definition provider_down (_ : App.client) (_ : string) : py token :=
  Raised (OtherException "ConnectionError" "rpc endpoint unreachable").

Definition risk_ok (_ : token) : py (dict string) :=
  Returned [("level"%string, "low"%string)].

Definition risk_down (_ : token) : py (dict string) :=
  Raised (ValueError "no holders").

Definition behavior_ok (_ : token) : py (list string) :=
  Returned ["hold"%string].

Definition behavior_down (_ : token) : py (list string) :=
  Raised (ValueError "no transfers").

Definition weights (_ : list (list float)) : float := 0.

Definition ethereum_request : App.TokenAnalysisRequest :=
  {| App.token_address := "0xabc"; App.chain_type := "ethereum";
     App.analysis_type := ["price"%string] |}.

End Stubs.

(** ** NaN and one infinity, as a class of values *)

Module NonFinite.

(** NaN, or the infinity of sign [s]. *)
Definition SFnaninf (s : bool) (x : spec_float) : bool :=
  match x with
  | S754_nan => true
  | S754_infinity s' => Bool.eqb s s'
  | _ => false
  end.

Definition naninf (s : bool) (x : float) : bool := SFnaninf s (Prim2SF x).

(** NaN or a value that is not below zero. *)
Definition SFnot_negative (x : spec_float) : bool :=
  match x with
  | S754_nan => true
  | _ => Sign.SFnonneg x
  end.

End NonFinite.

(** ** Facts of binary64 arithmetic, from the specification of the
    primitive operations *)

Module Binary64.

Import Sign.
Local Open Scope Z_scope.

(** A positive number of [d] binary digits is at least [2^(d-1)]. *)
Lemma digits_lower (p : positive) :
  2 ^ (Zpos (digits2_pos p) - 1) <= Zpos p.
Proof.
  induction p as [p IH | p IH |]; simpl digits2_pos; [| | simpl; lia].
  all: rewrite Pos2Z.inj_succ.
  all: replace (Z.succ (Zpos (digits2_pos p)) - 1)
         with (Z.succ (Zpos (digits2_pos p) - 1)) by lia.
  all: rewrite Z.pow_succ_r by lia; lia.
Qed.

(** One step of the right shift halves the mantissa. *)
Lemma shr_1_m (mrs : shr_record) :
  0 <= shr_m mrs -> shr_m (shr_1 mrs) = shr_m mrs / 2.
Proof.
  destruct mrs as [m r s]; simpl. intros Hm.
  destruct m as [| p | p]; try lia.
  - reflexivity.
  - destruct p as [p | p |]; simpl shr_m.
    + rewrite Pos2Z.inj_xI. apply Z.div_unique with (r := 1); lia.
    + rewrite Pos2Z.inj_xO. apply Z.div_unique with (r := 0); lia.
    + reflexivity.
Qed.

Lemma shr_1_nonneg (mrs : shr_record) :
  0 <= shr_m mrs -> 0 <= shr_m (shr_1 mrs).
Proof. intros Hm. rewrite shr_1_m by assumption. apply Z.div_pos; lia. Qed.

(** [n] steps divide it by [2^n]. *)
Lemma iter_shr_m (p : positive) : forall mrs,
  0 <= shr_m mrs ->
  shr_m (SpecFloat.iter_pos shr_1 p mrs) = shr_m mrs / 2 ^ Zpos p.
Proof.
  induction p as [p IH | p IH |]; intros mrs Hm; simpl SpecFloat.iter_pos.
  - assert (H1 := shr_1_nonneg mrs Hm).
    assert (H2 : 0 <= shr_m (SpecFloat.iter_pos shr_1 p (shr_1 mrs)))
      by (rewrite IH by assumption; apply Z.div_pos; lia).
    rewrite IH, IH, shr_1_m by assumption.
    rewrite !Z.div_div by lia.
    f_equal. rewrite Pos2Z.inj_xI.
    replace (2 * Zpos p + 1) with (1 + Zpos p + Zpos p) by lia.
    rewrite !Z.pow_add_r by lia. change (2 ^ 1) with 2. ring.
  - assert (H2 : 0 <= shr_m (SpecFloat.iter_pos shr_1 p mrs))
      by (rewrite IH by assumption; apply Z.div_pos; lia).
    rewrite IH, IH by assumption. rewrite Z.div_div by lia.
    f_equal. rewrite Pos2Z.inj_xO, <- Z.pow_add_r by lia.
    f_equal; lia.
  - rewrite shr_1_m by assumption. reflexivity.
Qed.

Lemma fexp_ge_emin (e : Z) : emin64 <= fexp prec emax e.
Proof. unfold fexp, SpecFloat.emin, emin64, prec, emax. lia. Qed.

Lemma Zdigits2_pos_lower (m : Z) : 0 < m -> 2 ^ (Zdigits2 m - 1) <= m.
Proof. destruct m; try lia. intros _. apply digits_lower. Qed.

(** The shift that brings a positive mantissa to its canonical exponent
    leaves it positive, as long as the exponent is not below [emin]. *)
Lemma shr_fexp_pos (m e : Z) (l : location) :
  0 < m -> emin64 <= e ->
  0 < shr_m (fst (shr_fexp prec emax m e l)) /\
  emin64 <= snd (shr_fexp prec emax m e l).
Proof.
  intros Hm He. unfold shr_fexp, shr.
  assert (Hrec : shr_m (shr_record_of_loc m l) = m)
    by (destruct l as [| []]; reflexivity).
  destruct (fexp prec emax (Zdigits2 m + e) - e) as [| n | n] eqn:Hn;
    simpl fst; simpl snd.
  - rewrite Hrec. lia.
  - rewrite iter_shr_m by lia. rewrite Hrec. split; [| lia].
    assert (Hd : Zpos n < Zdigits2 m).
    { unfold fexp, SpecFloat.emin, emin64, prec, emax in *. lia. }
    assert (Hlow := Zdigits2_pos_lower m Hm).
    assert (2 ^ Zpos n <= 2 ^ (Zdigits2 m - 1))
      by (apply Z.pow_le_mono_r; lia).
    assert (0 < 2 ^ Zpos n) by (apply Z.pow_pos_nonneg; lia).
    apply Z.div_str_pos. lia.
  - rewrite Hrec. lia.
Qed.

(** Rounding to nearest keeps a positive mantissa positive. *)
Lemma round_nearest_even_pos (m : Z) (l : location) :
  0 < m -> 0 < round_nearest_even m l.
Proof.
  intros Hm. destruct l as [| []]; simpl; try lia.
  destruct (Z.even m); lia.
Qed.

(** So rounding a positive mantissa gives a positive number or plus
    infinity, never a zero. *)
Lemma binary_round_aux_pos (m e : Z) (l : location) :
  0 < m -> emin64 <= e ->
  SFpos (binary_round_aux prec emax false m e l) = true.
Proof.
  intros Hm He. unfold binary_round_aux.
  destruct (shr_fexp_pos m e l Hm He) as [H1 H1'].
  destruct (shr_fexp prec emax m e l) as [mrs' e'].
  simpl fst in H1; simpl snd in H1'.
  assert (H2 := round_nearest_even_pos _ (loc_of_shr_record mrs') H1).
  destruct (shr_fexp_pos _ _ loc_Exact H2 H1') as [H3 _].
  destruct (shr_fexp prec emax _ e' loc_Exact) as [mrs'' e''].
  simpl fst in H3.
  destruct (shr_m mrs''); try lia.
  destruct (e'' <=? emax - prec); reflexivity.
Qed.

Lemma shl_align_exp (m : positive) (e e' : Z) :
  emin64 <= e -> emin64 <= e' -> emin64 <= snd (shl_align m e e').
Proof.
  intros He He'. unfold shl_align. destruct (e' - e); simpl; assumption.
Qed.

Lemma binary_round_pos (m : positive) (e : Z) :
  emin64 <= e -> SFpos (binary_round prec emax false m e) = true.
Proof.
  intros He. unfold binary_round.
  assert (H := shl_align_exp m e _ He
                 (fexp_ge_emin (Zpos (digits2_pos m) + e))).
  destruct (shl_align m e _) as [mz ez]. simpl snd in H.
  apply binary_round_aux_pos; [lia | assumption].
Qed.

(** A valid finite binary64 number has an exponent field of at least
    [emin]. *)
Lemma bounded_exp (m : positive) (e : Z) :
  bounded prec emax m e = true -> emin64 <= e.
Proof.
  unfold bounded, canonical_mantissa. intros H.
  apply andb_prop in H. destruct H as [H _]. apply Z.eqb_eq in H.
  rewrite <- H. apply fexp_ge_emin.
Qed.

(** The sum of a non-negative and a positive value is positive. *)
Lemma SFadd_pos (x y : spec_float) :
  valid_binary x = true -> valid_binary y = true ->
  SFnonneg x = true -> SFpos y = true ->
  SFpos (SF64add x y) = true.
Proof.
  intros Vx Vy Hx Hy.
  destruct x as [sx | [] | | [] mx ex]; try discriminate;
  destruct y as [sy | [] | | [] my ey]; try discriminate; try reflexivity.
  simpl in Vx, Vy. apply bounded_exp in Vx. apply bounded_exp in Vy.
  unfold SF64add, SFadd. unfold cond_Zopp.
  destruct (shl_align mx ex (Z.min ex ey)) as [mx' ex'].
  destruct (shl_align my ey (Z.min ex ey)) as [my' ey'].
  simpl fst. simpl Z.add. unfold binary_normalize.
  apply binary_round_pos. lia.
Qed.

Local Open Scope float_scope.

Lemma SFeqb_refl_finite (s : bool) (m : positive) (e : Z) :
  SFeqb (S754_finite s m e) (S754_finite s m e) = true.
Proof.
  unfold SFeqb, SFcompare. rewrite Z.compare_refl.
  rewrite Pos.compare_cont_refl. destruct s; reflexivity.
Qed.

(** [is_finite] on the specification side. *)
Lemma is_finite_spec (x : float) :
  is_finite x =
  match Prim2SF x with
  | S754_zero _ | S754_finite _ _ _ => true
  | _ => false
  end.
Proof.
  unfold is_finite, is_nan, is_infinity.
  rewrite !FloatAxioms.eqb_spec, abs_spec.
  change (Prim2SF infinity) with (S754_infinity false).
  destruct (Prim2SF x) as [s | s | | s m e].
  - destruct s; reflexivity.
  - destruct s; reflexivity.
  - reflexivity.
  - rewrite SFeqb_refl_finite. reflexivity.
Qed.

Lemma of_SF (x : float) (v : spec_float) :
  Prim2SF x = v -> x = SF2Prim v.
Proof. intros <-. symmetry. apply SF2Prim_Prim2SF. Qed.

Lemma not_finite_cases (x : float) :
  is_finite x = false -> x = nan \/ x = infinity \/ x = neg_infinity.
Proof.
  rewrite is_finite_spec.
  destruct (Prim2SF x) as [s | s | | s m e] eqn:E; try discriminate; intros _.
  - destruct s; apply of_SF in E; auto.
  - apply of_SF in E; auto.
Qed.

(** [x - x] is [+0.0] for every finite [x]. *)
Lemma sub_self (x : float) : is_finite x = true -> x - x = 0.
Proof.
  rewrite is_finite_spec. intros H.
  apply Prim2SF_inj. rewrite sub_spec.
  change (Prim2SF 0) with (S754_zero false).
  destruct (Prim2SF x) as [s | s | | s m e]; try discriminate.
  - destruct s; reflexivity.
  - unfold SF64sub, SFsub.
    rewrite Z.sub_diag. reflexivity.
Qed.

Lemma div_eucl_div_mod (a b : Z) : Z.div_eucl a b = (a / b, a mod b)%Z.
Proof. unfold Z.div, Z.modulo. destruct (Z.div_eucl a b); reflexivity. Qed.

(** Rounding a mantissa that is already canonical changes nothing. *)
Lemma binary_round_aux_canonical (s : bool) (m : positive) (e : Z) :
  bounded prec emax m e = true ->
  binary_round_aux prec emax s (Zpos m) e loc_Exact = S754_finite s m e.
Proof.
  unfold bounded, canonical_mantissa. intros H.
  apply andb_prop in H. destruct H as [Hc He]. apply Z.eqb_eq in Hc.
  unfold binary_round_aux, shr_fexp.
  cbv beta iota delta [Zdigits2]. rewrite Hc, Z.sub_diag.
  cbv beta iota zeta delta [shr shr_record_of_loc shr_m loc_of_shr_record
                              round_nearest_even Zdigits2].
  rewrite Hc, Z.sub_diag.
  cbv beta iota zeta delta [shr shr_record_of_loc shr_m].
  rewrite He. reflexivity.
Qed.

(** The same mantissa with one more binary digit, at the exponent below,
    rounds back to the canonical form. *)
Lemma binary_round_aux_double (s : bool) (m : positive) (e : Z) :
  bounded prec emax m e = true -> (emin64 < e)%Z ->
  binary_round_aux prec emax s (Zpos m~0) (e - 1) loc_Exact
  = S754_finite s m e.
Proof.
  unfold bounded, canonical_mantissa. intros H Hlt.
  apply andb_prop in H. destruct H as [Hc He]. apply Z.eqb_eq in Hc.
  unfold binary_round_aux, shr_fexp. simpl Zdigits2.
  assert (H1 : (fexp prec emax (Zpos (Pos.succ (digits2_pos m)) + (e - 1))
                - (e - 1) = 1)%Z).
  { rewrite Pos2Z.inj_succ.
    unfold fexp, SpecFloat.emin, emin64, prec, emax in *. lia. }
  rewrite H1.
  cbv beta iota zeta delta [shr shr_record_of_loc shr_m loc_of_shr_record
                              round_nearest_even Zdigits2 SpecFloat.iter_pos
                              shr_1 orb].
  replace (e - 1 + 1)%Z with e by lia.
  rewrite Hc, Z.sub_diag.
  cbv beta iota zeta delta [shr shr_record_of_loc shr_m].
  rewrite He. reflexivity.
Qed.

(** The quotient of a finite number by [1.0], whose mantissa is [2^52]
    and exponent [-52], is the number itself. *)
Lemma SFdiv_one_finite (s : bool) (m : positive) (e : Z) :
  bounded prec emax m e = true ->
  SF64div (S754_finite s m e) (S754_finite false 4503599627370496 (-52))
  = S754_finite s m e.
Proof.
  intros Hb. assert (Hb' := Hb). unfold bounded, canonical_mantissa in Hb'.
  apply andb_prop in Hb'. destruct Hb' as [Hc He]. apply Z.eqb_eq in Hc.
  unfold SF64div, SFdiv, SFdiv_core_binary. rewrite xorb_false_r.
  simpl Zdigits2. rewrite div_eucl_div_mod.
  destruct (Z.eq_dec e emin64) as [-> | Hne].
  - assert (H1 : Z.min (fexp prec emax
                          (Zpos (digits2_pos m) + emin64 - (53 + -52)))
                   (emin64 - -52) = emin64).
    { unfold fexp, SpecFloat.emin, emin64, prec, emax in *. lia. }
    rewrite H1. change (emin64 - -52 - emin64)%Z with 52%Z. cbv iota.
    rewrite Z.shiftl_mul_pow2 by lia.
    change (2 ^ 52)%Z with 4503599627370496%Z.
    rewrite Z.div_mul, Z.mod_mul by lia.
    change (new_location 4503599627370496 0) with loc_Exact.
    apply binary_round_aux_canonical. exact Hb.
  - assert (Hlt : (emin64 < e)%Z).
    { unfold fexp, SpecFloat.emin, emin64, prec, emax in *. lia. }
    assert (H1 : Z.min (fexp prec emax
                          (Zpos (digits2_pos m) + e - (53 + -52)))
                   (e - -52) = (e - 1)%Z).
    { unfold fexp, SpecFloat.emin, emin64, prec, emax in *. lia. }
    rewrite H1. replace (e - -52 - (e - 1))%Z with 53%Z by lia. cbv iota.
    rewrite Z.shiftl_mul_pow2 by lia.
    replace (Zpos m * 2 ^ 53)%Z with (Zpos m~0 * 4503599627370496)%Z
      by (rewrite (Pos2Z.inj_xO m);
          change (2 ^ 53)%Z with (2 * 4503599627370496)%Z; ring).
    rewrite Z.div_mul, Z.mod_mul by lia.
    change (new_location 4503599627370496 0) with loc_Exact.
    apply binary_round_aux_double; assumption.
Qed.

(** Division by [1.0] is exact. *)
Lemma div_one (x : float) : x / 1 = x.
Proof.
  apply Prim2SF_inj. rewrite div_spec.
  change (Prim2SF 1) with (S754_finite false 4503599627370496 (-52)).
  assert (V := Prim2SF_valid x).
  destruct (Prim2SF x) as [s | s | | s m e].
  - simpl. rewrite xorb_false_r. reflexivity.
  - simpl. rewrite xorb_false_r. reflexivity.
  - reflexivity.
  - apply SFdiv_one_finite. exact V.
Qed.

Lemma fpos_nonneg (x : float) : fpos x = true -> fnonneg x = true.
Proof.
  unfold fpos, fnonneg. destruct (Prim2SF x) as [| [] | | [] ? ?]; auto.
Qed.

Lemma add_pos (x y : float) :
  fnonneg x = true -> fpos y = true -> fpos (x + y) = true.
Proof.
  unfold fnonneg, fpos. intros Hx Hy. rewrite add_spec.
  apply SFadd_pos; auto using Prim2SF_valid.
Qed.

Lemma float_of_nat_nonneg (n : nat) : fnonneg (Numpy.float_of_nat n) = true.
Proof.
  induction n as [| n IH]; [reflexivity |].
  apply fpos_nonneg. simpl. apply add_pos; [exact IH | reflexivity].
Qed.

Lemma float_of_nat_pos (n : nat) : fpos (Numpy.float_of_nat (S n)) = true.
Proof. simpl. apply add_pos; [apply float_of_nat_nonneg | reflexivity]. Qed.

(** A positive value is not zero. *)
Lemma fpos_nonzero (x : float) : fpos x = true -> (x =? 0) = false.
Proof.
  unfold fpos. rewrite FloatAxioms.eqb_spec.
  change (Prim2SF 0) with (S754_zero false).
  destruct (Prim2SF x) as [| [] | | [] ? ?]; try discriminate; reflexivity.
Qed.

(** [+0.0] divided by a positive value is [+0.0]. *)
Lemma zero_div_pos (y : float) : fpos y = true -> 0 / y = 0.
Proof.
  unfold fpos. intros Hy. apply Prim2SF_inj. rewrite div_spec.
  change (Prim2SF 0) with (S754_zero false).
  destruct (Prim2SF y) as [| [] | | [] ? ?]; try discriminate; reflexivity.
Qed.

(** A square root is NaN, a zero, positive or plus infinity. *)
Lemma sqrt_class (v : float) :
  Prim2SF (sqrt v) = S754_nan \/ fnonneg (sqrt v) = true.
Proof.
  unfold fnonneg. rewrite sqrt_spec. unfold SF64sqrt, SFsqrt.
  destruct (Prim2SF v) as [s | [] | | [] m e]; auto.
  destruct (SFsqrt_core_binary prec emax (Zpos m) e) as [[mz ez] lz].
  unfold binary_round_aux.
  destruct (shr_fexp prec emax mz ez lz) as [mrs' e'].
  destruct (shr_fexp prec emax _ e' loc_Exact) as [mrs'' e''].
  destruct (shr_m mrs''); auto.
  destruct (e'' <=? emax - prec)%Z; auto.
Qed.

(** The divisor of the normalisation: a square root plus [1e-8] is never
    a zero. *)
Lemma sqrt_plus_eps_nonzero (v : float) : (sqrt v + 1e-8 =? 0) = false.
Proof.
  destruct (sqrt_class v) as [H | H].
  - rewrite FloatAxioms.eqb_spec, add_spec, H. reflexivity.
  - apply fpos_nonzero. apply add_pos; [exact H | reflexivity].
Qed.



(** NaN is absorbing. *)
Ltac nan_absorbs spec x :=
  apply Prim2SF_inj; rewrite spec; change (Prim2SF nan) with S754_nan;
  try destruct (Prim2SF x); reflexivity.

Lemma add_nan_l (x : float) : nan + x = nan.
Proof. nan_absorbs add_spec x. Qed.

Lemma add_nan_r (x : float) : x + nan = nan.
Proof. nan_absorbs add_spec x. Qed.

Lemma sub_nan_l (x : float) : nan - x = nan.
Proof. nan_absorbs sub_spec x. Qed.

Lemma sub_nan_r (x : float) : x - nan = nan.
Proof. nan_absorbs sub_spec x. Qed.

Lemma div_nan_l (x : float) : nan / x = nan.
Proof. nan_absorbs div_spec x. Qed.

(** Adding to [+0.0] changes nothing but the sign of a zero. *)
Lemma add_zero_l (x : float) : (x =? 0) = false -> 0 + x = x.
Proof.
  intros Hx. rewrite FloatAxioms.eqb_spec in Hx.
  apply Prim2SF_inj. rewrite add_spec.
  change (Prim2SF 0) with (S754_zero false) in *.
  destruct (Prim2SF x) as [s | s | | s m e]; try reflexivity.
  destruct s; discriminate Hx.
Qed.

Lemma eqb_zero_cases (x : float) :
  (x =? 0) = true -> x = 0 \/ x = neg_zero.
Proof.
  intros Hx. rewrite FloatAxioms.eqb_spec in Hx.
  change (Prim2SF 0) with (S754_zero false) in Hx.
  destruct (Prim2SF x) as [s | s | | s m e] eqn:E.
  - rewrite (of_SF x (S754_zero s) E). destruct s; [right | left]; reflexivity.
  - destruct s; discriminate Hx.
  - discriminate Hx.
  - destruct s; discriminate Hx.
Qed.

(** Floats that compare equal are the same float, but for the two
    zeros. *)
Lemma eqb_nonzero_eq (x y : float) :
  (x =? y) = true -> (y =? 0) = false -> x = y.
Proof.
  intros Hxy Hy. rewrite FloatAxioms.eqb_spec in Hxy, Hy.
  apply Prim2SF_inj.
  change (Prim2SF 0) with (S754_zero false) in Hy.
  unfold SFeqb in Hxy, Hy.
  destruct (Prim2SF x) as [s1 | s1 | | s1 m1 e1],
           (Prim2SF y) as [s2 | s2 | | s2 m2 e2];
    simpl in Hxy, Hy; try discriminate;
    try (destruct s1; discriminate); try (destruct s2; discriminate).
  - destruct s1, s2; try discriminate; reflexivity.
  - destruct s1, s2; try discriminate;
      destruct (Z.compare_spec e1 e2) as [-> | |]; try discriminate;
      change (Pos.compare_cont Eq m1 m2) with (Pos.compare m1 m2) in Hxy;
      destruct (Pos.compare_spec m1 m2) as [-> | |]; try discriminate;
      reflexivity.
Qed.

(** No float but [-0.0] has the bits of [-0.0]. *)
Lemma nonzero_not_neg_zero (x : float) :
  (x =? 0) = false -> Leibniz.eqb x neg_zero = false.
Proof.
  intros Hz. destruct (Leibniz.eqb x neg_zero) eqn:El; [| reflexivity].
  apply Leibniz.eqb_spec in El. rewrite El in Hz.
  vm_compute in Hz. discriminate Hz.
Qed.

End Binary64.

(** ** Sums, means and deviations *)

Module NumpyFacts.

Import Binary64.
Local Open Scope float_scope.

Lemma float_of_nat_1 : Numpy.float_of_nat 1 = 1.
Proof. reflexivity. Qed.

(** The standard deviation of one value is [+0.0], and NaN when the
    value is not finite. *)
(** *** The pairwise sum

    One step of the definition, whatever the fuel. *)
Lemma pairwise_sum_eq (fuel : nat) (a : Numpy.ndarray) :
  Numpy.pairwise_sum fuel a
  = if (length a <? 8)%nat then Numpy.short_sum a
    else if (length a <=? 128)%nat then Numpy.block_sum a
    else match fuel with
         | O => Numpy.block_sum a
         | S fuel' =>
             Numpy.pairwise_sum fuel'
               (firstn (length a / 2 - (length a / 2) mod 8) a)
             + Numpy.pairwise_sum fuel'
                 (skipn (length a / 2 - (length a / 2) mod 8) a)
         end.
Proof. destruct fuel; reflexivity. Qed.

(** The length of the array is fuel enough: more changes nothing. *)
Lemma pairwise_sum_fuel (f1 : nat) : forall (f2 : nat) (a : Numpy.ndarray),
  (length a <= f1)%nat -> (length a <= f2)%nat ->
  Numpy.pairwise_sum f1 a = Numpy.pairwise_sum f2 a.
Proof.
  induction f1 as [| f1 IH]; intros f2 a H1 H2;
    rewrite (pairwise_sum_eq _ a), (pairwise_sum_eq f2 a);
    destruct (Nat.ltb_spec (length a) 8) as [Hs | Hs]; try reflexivity;
    destruct (Nat.leb_spec (length a) 128) as [Hb | Hb]; try reflexivity;
    try lia.
  destruct f2 as [| f2]; [lia |].
  assert (Hn2 : (57 <= length a / 2 - (length a / 2) mod 8 < length a)%nat).
  { pose proof (Nat.div_mod_eq (length a) 2) as D.
    pose proof (Nat.mod_upper_bound (length a) 2) as M2.
    pose proof (Nat.mod_upper_bound (length a / 2) 8) as M8. lia. }
  f_equal; apply IH; rewrite ?length_firstn, ?length_skipn; lia.
Qed.

Lemma add_into_length (r : list float) : forall block,
  length (Numpy.add_into r block) = length r.
Proof.
  induction r as [| x r IH]; intros [| y block]; simpl; try reflexivity.
  f_equal. apply IH.
Qed.

(** A class of values that an addition cannot leave, once one of its
    terms is in it (NaN is one), holds the sum of any array with an
    element in it. *)
Section Absorbing.

Variable P : float -> Prop.
Hypothesis P_l : forall x y, P x -> P (x + y).
Hypothesis P_r : forall x y, P y -> P (x + y).

Lemma fold_add_absorbed (l : list float) : forall a,
  P a -> P (fold_left add l a).
Proof.
  induction l as [| x l IH]; intros a Ha; [exact Ha |].
  simpl. apply IH. apply P_l. exact Ha.
Qed.

Lemma fold_add_Exists_absorbed (l : list float) : forall a,
  Exists P l -> P (fold_left add l a).
Proof.
  induction l as [| x l IH]; intros a Hl.
  - apply Exists_nil in Hl. contradiction.
  - simpl. apply Exists_cons in Hl. destruct Hl as [Hx | Hl].
    + apply fold_add_absorbed. apply P_r. exact Hx.
    + apply IH. exact Hl.
Qed.

Lemma add_into_keeps (r : list float) : forall block,
  Exists P r -> Exists P (Numpy.add_into r block).
Proof.
  induction r as [| x r IH]; intros [| y block] Hr; simpl; try exact Hr.
  apply Exists_cons in Hr. apply Exists_cons. destruct Hr as [Hx | Hr].
  - left. apply P_l. exact Hx.
  - right. apply IH. exact Hr.
Qed.

Lemma add_into_takes (r : list float) : forall block,
  (length block <= length r)%nat -> Exists P block ->
  Exists P (Numpy.add_into r block).
Proof.
  induction r as [| x r IH]; intros [| y block] Hlen Hb; simpl in *;
    try (apply Exists_nil in Hb; contradiction); try lia.
  apply Exists_cons in Hb. apply Exists_cons. destruct Hb as [Hy | Hb].
  - left. apply P_r. exact Hy.
  - right. apply IH; [lia | exact Hb].
Qed.

Lemma join8_absorbed (r : list float) :
  length r = 8%nat -> Exists P r -> P (Numpy.join8 r).
Proof.
  intros Hlen Hr.
  do 9 (destruct r as [| ? r]; try discriminate Hlen).
  rewrite !Exists_cons, Exists_nil in Hr. unfold Numpy.join8.
  intuition auto 6.
Qed.

Lemma leftover_absorbed (r a : list float) :
  length r = 8%nat -> Exists P r \/ Exists P a ->
  P (fold_left add a (Numpy.join8 r)).
Proof.
  intros Hlen [Hr | Ha].
  - apply fold_add_absorbed. apply join8_absorbed; assumption.
  - apply fold_add_Exists_absorbed. exact Ha.
Qed.

Lemma unrolled_absorbed (n : nat) : forall a r : list float,
  (length a <= n)%nat -> length r = 8%nat -> Exists P r \/ Exists P a ->
  P (Numpy.unrolled r a).
Proof.
  induction n as [| n IH]; intros a r Hn Hlen HE;
    destruct a as [| a0 [| a1 [| a2 [| a3 [| a4 [| a5 [| a6 [| a7 rest]]]]]]]];
    try exact (leftover_absorbed r _ Hlen HE);
    simpl in Hn; try lia.
  change (P (Numpy.unrolled
               (Numpy.add_into r [a0; a1; a2; a3; a4; a5; a6; a7]) rest)).
  apply IH; [lia | rewrite add_into_length; exact Hlen |].
  destruct HE as [Hr | Ha].
  - left. apply add_into_keeps. exact Hr.
  - change (Exists P ([a0; a1; a2; a3; a4; a5; a6; a7] ++ rest)) in Ha.
    apply Exists_app in Ha. destruct Ha as [Ha | Ha].
    + left. apply add_into_takes; [rewrite Hlen; simpl; lia | exact Ha].
    + right. exact Ha.
Qed.

Lemma block_sum_absorbed (a : Numpy.ndarray) :
  (8 <= length a)%nat -> Exists P a -> P (Numpy.block_sum a).
Proof.
  intros Hlen Ha. unfold Numpy.block_sum.
  apply (unrolled_absorbed (length (skipn 8 a))); [lia | |].
  - rewrite length_firstn. lia.
  - apply Exists_app. rewrite firstn_skipn. exact Ha.
Qed.

Lemma pairwise_sum_absorbed (fuel : nat) : forall a : Numpy.ndarray,
  Exists P a -> P (Numpy.pairwise_sum fuel a).
Proof.
  induction fuel as [| fuel IH]; intros a Ha; rewrite pairwise_sum_eq;
    destruct (Nat.ltb_spec (length a) 8) as [Hs | Hs];
    try (apply fold_add_Exists_absorbed; exact Ha);
    destruct (Nat.leb_spec (length a) 128) as [Hb | Hb];
    try (apply block_sum_absorbed; [lia | exact Ha]).
  rewrite <- (firstn_skipn (length a / 2 - (length a / 2) mod 8) a) in Ha.
  apply Exists_app in Ha. destruct Ha as [Ha | Ha].
  - apply P_l. apply IH. exact Ha.
  - apply P_r. apply IH. exact Ha.
Qed.

Lemma sum_absorbed (a : Numpy.ndarray) : Exists P a -> P (Numpy.sum a).
Proof.
  intros Ha. unfold Numpy.sum. apply P_r. apply pairwise_sum_absorbed.
  exact Ha.
Qed.

End Absorbing.

(** A class of values that holds [0.0] and the sum of any two of its
    members holds the sum of any array of its members. *)
Section Closed.

Variable Q : float -> Prop.
Hypothesis Q_add : forall x y, Q x -> Q y -> Q (x + y).
Hypothesis Q_zero : Q 0.

Lemma fold_add_closed (l : list float) : forall a,
  Q a -> Forall Q l -> Q (fold_left add l a).
Proof.
  induction l as [| x l IH]; intros a Ha Hl; [exact Ha |].
  apply Forall_cons_iff in Hl. destruct Hl as [Hx Hl].
  simpl. apply IH; [apply Q_add; assumption | exact Hl].
Qed.

Lemma add_into_closed (r : list float) : forall block,
  Forall Q r -> Forall Q block -> Forall Q (Numpy.add_into r block).
Proof.
  induction r as [| x r IH]; intros [| y block] Hr Hb; simpl; try exact Hr.
  apply Forall_cons_iff in Hr. apply Forall_cons_iff in Hb.
  destruct Hr as [Hx Hr]. destruct Hb as [Hy Hb].
  apply Forall_cons; [apply Q_add; assumption | apply IH; assumption].
Qed.

Lemma join8_closed (r : list float) : Forall Q r -> Q (Numpy.join8 r).
Proof.
  intros Hr.
  do 9 (destruct r as [| ? r]; try exact Q_zero).
  rewrite !Forall_cons_iff in Hr. unfold Numpy.join8.
  intuition auto 6.
Qed.

Lemma unrolled_closed (n : nat) : forall a r : list float,
  (length a <= n)%nat -> Forall Q r -> Forall Q a ->
  Q (Numpy.unrolled r a).
Proof.
  induction n as [| n IH]; intros a r Hn Hr Ha;
    destruct a as [| a0 [| a1 [| a2 [| a3 [| a4 [| a5 [| a6 [| a7 rest]]]]]]]];
    try exact (fold_add_closed _ _ (join8_closed r Hr) Ha);
    simpl in Hn; try lia.
  change (Q (Numpy.unrolled
               (Numpy.add_into r [a0; a1; a2; a3; a4; a5; a6; a7]) rest)).
  change (Forall Q ([a0; a1; a2; a3; a4; a5; a6; a7] ++ rest)) in Ha.
  apply Forall_app in Ha. destruct Ha as [Hblock Hrest].
  apply IH; [lia | apply add_into_closed; assumption | exact Hrest].
Qed.

Lemma block_sum_closed (a : Numpy.ndarray) :
  Forall Q a -> Q (Numpy.block_sum a).
Proof.
  intros Ha. rewrite <- (firstn_skipn 8 a) in Ha.
  apply Forall_app in Ha. destruct Ha as [Hr Hrest].
  unfold Numpy.block_sum.
  apply (unrolled_closed (length (skipn 8 a))); [lia | assumption ..].
Qed.

Lemma pairwise_sum_closed (fuel : nat) : forall a : Numpy.ndarray,
  Forall Q a -> Q (Numpy.pairwise_sum fuel a).
Proof.
  induction fuel as [| fuel IH]; intros a Ha; rewrite pairwise_sum_eq;
    destruct (Nat.ltb_spec (length a) 8) as [Hs | Hs];
    try (apply fold_add_closed; [exact Q_zero | exact Ha]);
    destruct (Nat.leb_spec (length a) 128) as [Hb | Hb];
    try (apply block_sum_closed; exact Ha).
  rewrite <- (firstn_skipn (length a / 2 - (length a / 2) mod 8) a) in Ha.
  apply Forall_app in Ha. destruct Ha as [H1 H2].
  apply Q_add; apply IH; assumption.
Qed.

Lemma sum_closed (a : Numpy.ndarray) : Forall Q a -> Q (Numpy.sum a).
Proof.
  intros Ha. unfold Numpy.sum.
  apply Q_add; [exact Q_zero | apply pairwise_sum_closed; exact Ha].
Qed.

End Closed.

(** The sum of one element: the element, with [-0.0] turned into
    [+0.0] by the reduction's initial [0.0]. *)
Lemma sum_singleton (x : float) : Numpy.sum [x] = 0 + (0 + x).
Proof. reflexivity. Qed.

Lemma sum_singleton_nonzero (x : float) :
  (x =? 0) = false -> Numpy.sum [x] = x.
Proof.
  intros Hx. rewrite sum_singleton, !(add_zero_l x Hx). reflexivity.
Qed.

Lemma mean_singleton_nonzero (x : float) :
  (x =? 0) = false -> Numpy.mean [x] = x.
Proof.
  intros Hx. unfold Numpy.mean. rewrite (sum_singleton_nonzero x Hx).
  apply div_one.
Qed.

Lemma std_singleton (r : float) :
  Numpy.std [r] = if is_finite r then 0 else nan.
Proof.
  destruct (r =? 0) eqn:Hz.
  - destruct (eqb_zero_cases r Hz) as [-> | ->]; reflexivity.
  - unfold Numpy.std. rewrite (mean_singleton_nonzero r Hz).
    cbn [map length]. rewrite sum_singleton, float_of_nat_1, div_one.
    destruct (is_finite r) eqn:E.
    + rewrite (sub_self r E). reflexivity.
    + destruct (not_finite_cases r E) as [-> | [-> | ->]]; reflexivity.
Qed.

Lemma sum_In_nan (a : Numpy.ndarray) : In nan a -> Numpy.sum a = nan.
Proof.
  intros Hin.
  apply (sum_absorbed (fun x => x = nan)).
  - intros x y ->. apply add_nan_l.
  - intros x y ->. apply add_nan_r.
  - apply Exists_exists. exists nan. split; [exact Hin | reflexivity].
Qed.

Lemma mean_In_nan (a : Numpy.ndarray) : In nan a -> Numpy.mean a = nan.
Proof.
  intros Hin. unfold Numpy.mean. rewrite (sum_In_nan a Hin).
  apply div_nan_l.
Qed.

Lemma std_In_nan (a : Numpy.ndarray) : In nan a -> Numpy.std a = nan.
Proof.
  intros Hin. unfold Numpy.std. rewrite (mean_In_nan a Hin).
  rewrite sum_In_nan; [rewrite div_nan_l; reflexivity |].
  rewrite map_map. apply in_map_iff. exists nan.
  split; [reflexivity | exact Hin].
Qed.

Lemma diff_In_nan (a : Numpy.ndarray) :
  (2 <= length a)%nat -> In nan a -> In nan (Numpy.diff a).
Proof.
  induction a as [| x [| y rest] IH]; simpl length; intros Hlen Hin;
    try lia.
  change (Numpy.diff (x :: y :: rest))
    with ((y - x) :: Numpy.diff (y :: rest)).
  destruct Hin as [-> | [-> | Hin]].
  - left. apply sub_nan_r.
  - left. apply sub_nan_l.
  - right. apply IH; [| right; exact Hin].
    destruct rest; [contradiction | simpl; lia].
Qed.

Lemma log1_negative `{Libm} (p : float) :
  (p <? 0) = true -> Numpy.log1 p = nan.
Proof.
  intros Hp. unfold Numpy.log1. rewrite Hp.
  destruct (is_nan p); reflexivity.
Qed.

Lemma log_negative_In_nan `{Libm} (a : Numpy.ndarray) :
  existsb (fun p => p <? 0) a = true -> In nan (Numpy.log a).
Proof.
  intros Hex. apply existsb_exists in Hex. destruct Hex as [p [Hin Hp]].
  rewrite <- (log1_negative p Hp). unfold Numpy.log. apply in_map. exact Hin.
Qed.

End NumpyFacts.

(** ** Feature extraction *)

Section Features.

Import Py PricePrediction Samples.
Local Open Scope float_scope.

(** A normalised column has the length of its series, and ten entries
    when the series is empty. *)
Lemma normalize_length (data : Numpy.ndarray) :
  length (_normalize data)
  = if (length data =? 0)%nat then 10%nat else length data.
Proof.
  unfold _normalize. destruct (length data =? 0)%nat.
  - apply repeat_length.
  - apply length_map.
Qed.

Lemma rows3_length (a b c : Numpy.ndarray) :
  length a = length b -> length b = length c ->
  length (Numpy.rows3 a b c) = length a.
Proof.
  revert b c. induction a as [| x a IH]; intros [| y b] [| z c] Hab Hbc;
    simpl in *; try discriminate; try reflexivity.
  f_equal. apply IH; congruence.
Qed.

Lemma rows3_width (a b c : Numpy.ndarray) :
  (0 < length a)%nat -> length a = length b -> length b = length c ->
  length (hd [] (Numpy.rows3 a b c)) = 3%nat.
Proof.
  destruct a, b, c; simpl; intros; try lia; try discriminate; reflexivity.
Qed.

(** Rounding the entries keeps the shape. *)
Lemma FloatTensor_length (m : list (list float)) :
  length (Torch.FloatTensor m) = length m.
Proof. apply length_map. Qed.

Lemma FloatTensor_width (m : list (list float)) :
  length (hd [] (Torch.FloatTensor m)) = length (hd [] m).
Proof. destruct m as [| row m]; [reflexivity | apply length_map]. Qed.

Lemma normalize_nonempty (data : Numpy.ndarray) :
  (0 < length (_normalize data))%nat.
Proof.
  rewrite normalize_length.
  destruct (length data =? 0)%nat eqn:E; [lia |].
  apply Nat.eqb_neq in E. lia.
Qed.

(** C1, refuted as stated: three series of one entry give a matrix of
    shape [1, 1, 3], three series of twelve entries one of shape
    [1, 12, 3] (nothing is padded, nothing is truncated), and series of
    different lengths raise instead of returning a matrix. *)
Lemma extract_features_shape_not_fixed :
  returned_shape (_extract_features short_record) = Some [1; 1; 3]%nat /\
  returned_shape (_extract_features long_record) = Some [1; 12; 3]%nat /\
  returned_shape (_extract_features mismatched_record) = None.
Proof. repeat split; vm_compute; reflexivity. Qed.

(** C1, as the code has it: the matrix has shape [1, n, 3] where [n] is
    the common length of the three normalised columns, a non-empty series
    keeping its own length and an empty one becoming ten zeros; when the
    three lengths differ the call raises [ValueError]. *)
Theorem extract_features_shape (token_data : Dict) :
  let column := fun key : string =>
    let n := length (get token_data key []) in
    if (n =? 0)%nat then 10%nat else n in
  let p := column "price_history"%string in
  let v := column "volume_history"%string in
  let l := column "liquidity_data"%string in
  if ((p =? v)%nat && (v =? l)%nat)%bool
  then exists t, _extract_features token_data = Returned t /\
                 Torch.shape3 t = [1%nat; p; 3%nat]
  else exists msg, _extract_features token_data = Raised (ValueError msg).
Proof.
  cbv zeta. unfold _extract_features, Numpy.column_stack3.
  rewrite !normalize_length.
  set (ph := get token_data "price_history" []).
  set (vh := get token_data "volume_history" []).
  set (ld := get token_data "liquidity_data" []).
  destruct ((_ =? _)%nat && (_ =? _)%nat)%bool eqn:E.
  - apply andb_prop in E. destruct E as [E1 E2].
    apply Nat.eqb_eq in E1, E2. rewrite <- !normalize_length in E1, E2.
    eexists. split; [reflexivity |].
    unfold Torch.shape3, Torch.unsqueeze0. simpl hd. simpl length at 1.
    rewrite FloatTensor_length, FloatTensor_width.
    rewrite rows3_length, rows3_width, normalize_length;
      auto using normalize_nonempty.
  - eexists. reflexivity.
Qed.

End Features.

(** ** Trend analysis *)

Section Trends.

Import Py PricePrediction Samples.
Local Open Scope float_scope.



(** C3 at a history of one price: the guard [len(price_history) > 0]
    lets it through, the mean of no difference is NaN, NaN is neither
    above nor below zero, and the label of the last branch comes out
    instead of the empty sequence; an empty or absent history does give
    the empty sequence. *)
Theorem analyze_trends_single_price (x : float) (others : Dict) :
  Numpy.diff (Numpy.last_n 5 [x]) = [] /\
  Numpy.mean [] = nan /\
  _analyze_trends (("price_history"%string, [x]) :: others)
  = ["Sideways Movement"%string] /\
  _analyze_trends (("price_history"%string, []) :: others) = [] /\
  _analyze_trends [] = [].
Proof.
  split; [reflexivity |]. split; [reflexivity |].
  split; [| split; reflexivity].
  unfold _analyze_trends. cbn [get String.eqb Ascii.eqb Bool.eqb].
  cbn [length Nat.ltb Nat.leb]. reflexivity.
Qed.



(** C10: at most one label is ever produced. *)
Theorem analyze_trends_at_most_one (token_data : Dict) :
  (length (_analyze_trends token_data) <= 1)%nat.
Proof.
  unfold _analyze_trends.
  destruct (0 <? length _)%nat; simpl; [| lia].
  destruct (0 <? _); simpl; [lia |].
  destruct (_ <? 0); simpl; lia.
Qed.

End Trends.

(** ** Volatility *)

Section Volatility.

Import Py PricePrediction Binary64 NumpyFacts.
Local Open Scope float_scope.

Context `{Libm}.

(** On two prices there is one log-return, and its deviation from itself
    is zero: the result is [+0.0], or NaN when the log-return is not
    finite. *)
Lemma volatility_two_prices (p0 p1 : float) (others : Dict) :
  _calculate_volatility (("price_history"%string, [p0; p1]) :: others)
  = if is_finite (Numpy.log1 p1 - Numpy.log1 p0) then 0 else nan.
Proof.
  unfold _calculate_volatility. cbn [get String.eqb Ascii.eqb Bool.eqb].
  cbn [length Nat.ltb Nat.leb Numpy.log map Numpy.diff].
  rewrite std_singleton.
  destruct (is_finite _); reflexivity.
Qed.

(** With a negative price in a history of two or more, the result is
    NaN. *)
Lemma volatility_negative_price (token_data : Dict) :
  let price_history := get token_data "price_history" [] in
  (2 <= length price_history)%nat ->
  existsb (fun p => p <? 0) price_history = true ->
  _calculate_volatility token_data = nan.
Proof.
  cbv zeta. intros Hlen Hneg. unfold _calculate_volatility.
  replace (1 <? length _)%nat with true
    by (symmetry; apply Nat.ltb_lt; lia).
  rewrite std_In_nan; [reflexivity |].
  apply diff_In_nan.
  - unfold Numpy.log. rewrite length_map. exact Hlen.
  - apply log_negative_In_nan. exact Hneg.
Qed.

End Volatility.

(** C4, refuted as stated: [1.0] and [2.0] are positive and unequal, and
    whatever the C library's logarithm returns the volatility of the two
    is not above zero. *)
Lemma volatility_two_prices_not_positive :
  ((0 <? 1) = true /\ (0 <? 2) = true /\ (1 =? 2) = false)%float /\
  forall L : Libm,
    (0 <? PricePrediction._calculate_volatility
            [("price_history"%string, [1; 2])])%float = false.
Proof.
  split; [repeat split |].
  intros L. rewrite volatility_two_prices.
  destruct (is_finite _); reflexivity.
Qed.

(** C4, as the code has it: for every two prices the volatility is
    exactly [+0.0] when the log-return is finite (as it is for two
    positive finite prices), and NaN otherwise; it is never above
    zero. *)
Theorem volatility_two_prices_is_zero (L : Libm) (p0 p1 : float)
    (others : PricePrediction.Dict) :
  let v := PricePrediction._calculate_volatility
             (("price_history"%string, [p0; p1]) :: others) in
  v = (if is_finite (Numpy.log1 p1 - Numpy.log1 p0) then 0 else nan)%float
  /\ (0 <? v)%float = false.
Proof.
  cbv zeta. rewrite volatility_two_prices.
  split; [reflexivity |].
  destruct (is_finite _); reflexivity.
Qed.

(** C5, refuted as stated: with a zero price, and with a negative one,
    the result is NaN and not [0.0], whatever the C library. *)
Lemma volatility_nonpositive_price_is_nan :
  (forall L : Libm,
     PricePrediction._calculate_volatility
       [("price_history"%string, [0; 0]%float)] = nan) /\
  (forall L : Libm,
     PricePrediction._calculate_volatility
       [("price_history"%string, [-1; 1]%float)] = nan) /\
  (nan =? 0)%float = false.
Proof.
  split; [| split].
  - intros L. reflexivity.
  - intros L. apply volatility_negative_price; reflexivity.
  - reflexivity.
Qed.

(** C5, as the code has it: [0.0] for a history of fewer than two
    prices; from two prices on, the annualised deviation of the
    log-returns with no guard, so that a negative price anywhere makes the
    result NaN. *)
Theorem calculate_volatility_guard (L : Libm)
    (token_data : PricePrediction.Dict) :
  let price_history := Py.get token_data "price_history" [] in
  ((length price_history < 2)%nat ->
   PricePrediction._calculate_volatility token_data = 0%float) /\
  ((2 <= length price_history)%nat ->
   PricePrediction._calculate_volatility token_data
   = (Numpy.std (Numpy.diff (Numpy.log price_history)) * sqrt 365)%float /\
   (existsb (fun p => p <? 0)%float price_history = true ->
    PricePrediction._calculate_volatility token_data = nan)).
Proof.
  cbv zeta. split.
  - intros Hlen. unfold PricePrediction._calculate_volatility.
    replace (1 <? length _)%nat with false
      by (symmetry; apply Nat.ltb_ge; lia).
    reflexivity.
  - intros Hlen. split.
    + unfold PricePrediction._calculate_volatility.
      replace (1 <? length _)%nat with true
        by (symmetry; apply Nat.ltb_lt; lia).
      reflexivity.
    + apply volatility_negative_price. exact Hlen.
Qed.

Lemma calculate_volatility_guard_witness :
  (forall L : Libm,
     PricePrediction._calculate_volatility
       [("price_history"%string, [100]%float)] = 0%float) /\
  (forall L : Libm,
     PricePrediction._calculate_volatility
       [("price_history"%string, [-1; 1]%float)] = nan).
Proof.
  split; intros L.
  - apply (proj1 (calculate_volatility_guard L
                    [("price_history"%string, [100]%float)])).
    simpl. lia.
  - apply (proj2 (calculate_volatility_guard L
                    [("price_history"%string, [-1; 1]%float)])).
    + simpl. lia.
    + reflexivity.
Defined.

(** ** Confidence *)

(** The features are a batch of one sequence. *)
Lemma extract_features_batch (token_data : PricePrediction.Dict)
    (features : Torch.tensor3) :
  PricePrediction._extract_features token_data = Py.Returned features ->
  exists seq, features = [seq].
Proof.
  unfold PricePrediction._extract_features.
  destruct (Numpy.column_stack3 _ _ _) as [m | e]; simpl;
    [| discriminate].
  intros [= <-]. eexists. reflexivity.
Qed.

(** C6 on the tensors the model returns: the confidence is the logistic
    function of the tensor's standard deviation, and for a tensor of one
    element, the only kind [LSTM.forward] returns for one sequence, that
    deviation is the square root of [0.0 / 0.0]: the confidence is NaN,
    whatever the element, and so is the [confidence_score] of every
    prediction dictionary [predict] returns. *)
Theorem calculate_confidence_single_element_nan (L : Libm) :
  (forall prediction : Torch.tensor2,
     PricePrediction._calculate_confidence prediction
     = Torch.sigmoid (Torch.std prediction)) /\
  (forall x : float, PricePrediction._calculate_confidence [[x]] = nan) /\
  (forall (self : PricePrediction.LSTM) (seq : list (list float))
          (prediction : Torch.tensor2),
     PricePrediction.forward self [seq] = Py.Returned prediction ->
     PricePrediction._calculate_confidence prediction = nan) /\
  (forall (self : PricePrediction.PricePredictionModel)
          (token_data : PricePrediction.Dict)
          (p c v : float) (trends : list string),
     PricePrediction.predict self token_data
     = Py.Returned [("predicted_price"%string, Py.VFloat p);
                    ("confidence_score"%string, Py.VFloat c);
                    ("price_trends"%string, Py.VStrList trends);
                    ("volatility_index"%string, Py.VFloat v)] ->
     c = nan).
Proof.
  assert (Hone : forall x : float,
            PricePrediction._calculate_confidence [[x]] = nan).
  { intros x. unfold PricePrediction._calculate_confidence, Torch.std.
    cbn [concat app length Nat.sub Numpy.float_of_nat map].
    destruct (x =? 0)%float eqn:Hz.
    - destruct (Binary64.eqb_zero_cases x Hz) as [-> | ->]; reflexivity.
    - rewrite (NumpyFacts.mean_singleton_nonzero x Hz).
      destruct (is_finite x) eqn:E.
      + rewrite (Binary64.sub_self x E). reflexivity.
      + destruct (Binary64.not_finite_cases x E) as [-> | [-> | ->]];
          reflexivity. }
  assert (Hfwd : forall (self : PricePrediction.LSTM)
                        (seq : list (list float))
                        (prediction : Torch.tensor2),
            PricePrediction.forward self [seq] = Py.Returned prediction ->
            PricePrediction._calculate_confidence prediction = nan).
  { intros self seq prediction. unfold PricePrediction.forward.
    destruct (_ =? _)%nat; [| discriminate].
    intros [= <-]. apply Hone. }
  split; [reflexivity | split; [exact Hone | split; [exact Hfwd |]]].
  intros self token_data p c v trends. unfold PricePrediction.predict.
  destruct (PricePrediction._extract_features token_data)
    as [features | e] eqn:Ef; simpl; [| discriminate].
  destruct (extract_features_batch token_data features Ef) as [seq ->].
  destruct (PricePrediction.forward (PricePrediction.model self) [seq])
    as [prediction | e] eqn:Ew; simpl; [| discriminate].
  destruct (PricePrediction.item00 prediction) as [y | e]; simpl;
    [| discriminate].
  intros [= _ <- _ _]. exact (Hfwd _ _ _ Ew).
Qed.

Lemma calculate_confidence_single_element_nan_witness :
  PricePrediction.forward Samples.three_feature_lstm [[[0; 0; 0]%float]]
  = Py.Returned [[0.5%float]] /\
  (forall L : Libm,
     PricePrediction._calculate_confidence [[0.5%float]] = nan) /\
  (forall L : Libm,
     PricePrediction.predict
       {| PricePrediction.model := Samples.three_feature_lstm |}
       Samples.short_record
     = Py.Returned
         [("predicted_price"%string, Py.VFloat 0.5%float);
          ("confidence_score"%string, Py.VFloat nan);
          ("price_trends"%string, Py.VStrList ["Sideways Movement"%string]);
          ("volatility_index"%string, Py.VFloat 0%float)]).
Proof.
  split; [reflexivity |]. split; intros L.
  - apply (proj1 (proj2 (proj2 (calculate_confidence_single_element_nan L)))
             Samples.three_feature_lstm [[0; 0; 0]%float]).
    reflexivity.
  - assert (Hp : exists c,
        PricePrediction.predict
          {| PricePrediction.model := Samples.three_feature_lstm |}
          Samples.short_record
        = Py.Returned
            [("predicted_price"%string, Py.VFloat 0.5%float);
             ("confidence_score"%string, Py.VFloat c);
             ("price_trends"%string,
                Py.VStrList ["Sideways Movement"%string]);
             ("volatility_index"%string, Py.VFloat 0%float)])
      by (eexists; reflexivity).
    destruct Hp as [c Hp]. rewrite Hp. do 4 f_equal.
    rewrite (proj2 (proj2 (proj2 (calculate_confidence_single_element_nan L)))
               _ _ _ _ _ _ Hp).
    reflexivity.
Defined.

(** ** Normalisation *)

Section Normalisation.

Import PricePrediction Binary64 NumpyFacts.
Local Open Scope float_scope.

(** A sum of [+0.0]s is [+0.0], in whatever order they are added. *)
Lemma sum_zeros (n : nat) : Numpy.sum (repeat 0 n) = 0.
Proof.
  apply (sum_closed (fun x => x = 0)).
  - intros x y -> ->. reflexivity.
  - reflexivity.
  - apply Forall_forall. intros x Hx. exact (repeat_spec n 0 x Hx).
Qed.

(** The deviation of a constant series is [+0.0] when the squared
    distance of the constant to the computed mean is: so when the mean
    is the constant. *)
Lemma std_constant_mean (c m : float) (n : nat) :
  Numpy.mean (repeat c (S n)) = m -> (c - m) * (c - m) = 0 ->
  Numpy.std (repeat c (S n)) = 0.
Proof.
  intros Hm Hsq. unfold Numpy.std. rewrite Hm, !map_repeat, Hsq.
  rewrite sum_zeros, repeat_length.
  rewrite (zero_div_pos _ (float_of_nat_pos n)). reflexivity.
Qed.

Lemma std_constant (c : float) (n : nat) :
  is_finite c = true -> Numpy.mean (repeat c (S n)) = c ->
  Numpy.std (repeat c (S n)) = 0.
Proof.
  intros Hc Hm. apply (std_constant_mean c c n Hm).
  rewrite (sub_self c Hc). reflexivity.
Qed.

(** The mean of zeros of either sign is [+0.0]: the sum starts from
    [+0.0]. *)
Lemma mean_signed_zeros (z : float) (n : nat) :
  (z =? 0) = true -> Numpy.mean (repeat z (S n)) = 0.
Proof.
  intros Hz. unfold Numpy.mean, Numpy.sum.
  assert (Hp : Numpy.pairwise_sum (length (repeat z (S n)))
                 (repeat z (S n)) = 0
               \/ Numpy.pairwise_sum (length (repeat z (S n)))
                    (repeat z (S n)) = neg_zero).
  { apply (pairwise_sum_closed (fun x => x = 0 \/ x = neg_zero)).
    - intros x y [-> | ->] [-> | ->]; [left | left | left | right];
        reflexivity.
    - left. reflexivity.
    - apply Forall_forall. intros x Hx.
      rewrite (repeat_spec (S n) z x Hx). apply eqb_zero_cases. exact Hz. }
  rewrite repeat_length in *.
  destruct Hp as [-> | ->];
    exact (zero_div_pos _ (float_of_nat_pos n)).
Qed.

(** C7, refuted as stated: eleven copies of [1e308] sum to infinity, and
    every normalised entry is NaN. *)
Lemma normalize_constant_overflow :
  (is_finite 1e308 = true /\ (10 < length (repeat 1e308%float 11))%nat) /\
  _normalize (repeat 1e308 11) = repeat nan 11.
Proof. repeat split; vm_compute; reflexivity. Qed.

(** C7, as the code has it: for every series the divisor is the
    deviation plus [1e-8] and is never a zero; a finite constant series,
    of any length, whose mean as numpy computes it equals the constant is
    mapped to zeros, [-0.0] for the constant [-0.0] and [+0.0] for any
    other; the empty series is mapped to ten zeros. *)
Theorem normalize_divisor_nonzero :
  (forall data : Numpy.ndarray,
     (Numpy.std data + 1e-8 =? 0) = false /\
     ((0 < length data)%nat ->
      _normalize data
      = map (fun x => (x - Numpy.mean data) / (Numpy.std data + 1e-8))
            data)) /\
  (forall (c : float) (n : nat),
     is_finite c = true -> (Numpy.mean (repeat c (S n)) =? c) = true ->
     _normalize (repeat c (S n))
     = repeat (if Leibniz.eqb c neg_zero then neg_zero else 0) (S n)) /\
  (_normalize [] = repeat 0 10 /\ length (_normalize []) = 10%nat).
Proof.
  split; [| split].
  - intros data. split.
    + unfold Numpy.std. apply sqrt_plus_eps_nonzero.
    + intros Hlen. unfold _normalize.
      destruct (length data =? 0)%nat eqn:E; [| reflexivity].
      apply Nat.eqb_eq in E. lia.
  - intros c n Hc Hm. unfold _normalize.
    rewrite repeat_length. cbn [Nat.eqb].
    destruct (c =? 0) eqn:Hz.
    + rewrite (mean_signed_zeros c n Hz).
      rewrite (std_constant_mean c 0 n (mean_signed_zeros c n Hz))
        by (destruct (eqb_zero_cases c Hz) as [-> | ->]; reflexivity).
      rewrite map_repeat.
      destruct (eqb_zero_cases c Hz) as [-> | ->]; reflexivity.
    + pose proof (eqb_nonzero_eq _ c Hm Hz) as Heq.
      rewrite Heq, (std_constant c n Hc Heq), map_repeat, (sub_self c Hc).
      rewrite (nonzero_not_neg_zero c Hz). reflexivity.
  - split; reflexivity.
Qed.

Lemma normalize_divisor_nonzero_witness :
  (is_finite 5 = true /\ (Numpy.mean (repeat 5 11) =? 5) = true) /\
  _normalize (repeat 5 11) = repeat 0 11 /\
  (is_finite neg_zero = true /\
   (Numpy.mean (repeat neg_zero 11) =? neg_zero) = true) /\
  _normalize (repeat neg_zero 11) = repeat neg_zero 11 /\
  _normalize [5] = [0].
Proof.
  split; [split; reflexivity |]. split; [| split; [| split]].
  - apply (proj1 (proj2 normalize_divisor_nonzero) 5 10%nat); reflexivity.
  - split; reflexivity.
  - apply (proj1 (proj2 normalize_divisor_nonzero) neg_zero 10%nat);
      reflexivity.
  - rewrite (proj2 (proj1 normalize_divisor_nonzero [5])) by (simpl; lia).
    reflexivity.
Defined.

End Normalisation.

(** ** The prediction boundary *)

Section Predict.

Import Py PricePrediction.

Context `{Libm}.

(** C2: whatever the record and whatever the network, [predict] returns;
    what it returns is a prediction dictionary with its four keys or the
    error dictionary with its two. *)
Theorem predict_never_raises (self : PricePredictionModel)
    (token_data : Dict) :
  (exists (p c v : float) (trends : list string),
     predict self token_data
     = Returned [("predicted_price"%string, VFloat p);
                 ("confidence_score"%string, VFloat c);
                 ("price_trends"%string, VStrList trends);
                 ("volatility_index"%string, VFloat v)]) \/
  (exists details : string,
     predict self token_data
     = Returned [("error"%string, VStr "Price prediction failed");
                 ("details"%string, VStr details)]).
Proof.
  unfold predict.
  destruct (_extract_features token_data) as [features | e]; simpl.
  - destruct (forward (model self) features) as [prediction | e]; simpl.
    + destruct (item00 prediction) as [p | e]; simpl.
      * left. do 4 eexists. reflexivity.
      * right. eexists. reflexivity.
    + right. eexists. reflexivity.
  - right. eexists. reflexivity.
Qed.

(** The features have three columns and the network built by the
    constructor expects ten: with that network every call ends in the
    error dictionary. *)
Lemma predict_constructed_model (weights : list (list float) -> float)
    (token_data : Dict) :
  exists details : string,
    predict (__init__ weights) token_data
    = Returned [("error"%string, VStr "Price prediction failed");
                ("details"%string, VStr details)].
Proof.
  unfold predict, _extract_features, Numpy.column_stack3.
  destruct (_ && _)%bool; simpl; [| eexists; reflexivity].
  unfold forward, size_last, Torch.unsqueeze0. simpl hd.
  destruct (Numpy.rows3 _ _ _) as [| row rows] eqn:E; simpl;
    [eexists; reflexivity |].
  assert (Hrow : length row = 3%nat).
  { destruct (_normalize (get token_data "price_history" [])),
             (_normalize (get token_data "volume_history" [])),
             (_normalize (get token_data "liquidity_data" []));
      simpl in E; try discriminate.
    injection E as <- _. reflexivity. }
  rewrite length_map, Hrow. simpl. eexists. reflexivity.
Qed.

End Predict.

(** ** The route *)

Section Endpoint.

Import Py App.

Variable TokenData : Type.
Variable metadata : TokenData -> dict string.
Variable series : TokenData -> PricePrediction.Dict.
Variable new_client : client -> py unit.
Variable get_token_data : client -> string -> py TokenData.
Variable new_risk_model : py unit.
Variable evaluate : TokenData -> py (dict string).
Variable new_behavior_model : py unit.
Variable analyze : TokenData -> py (list string).
Variable lstm_weights : list (list float) -> float.
Variable datetime_now : nat.
Context `{Libm}.

Let route := analyze_token metadata series new_client get_token_data
               new_risk_model evaluate new_behavior_model analyze
               lstm_weights datetime_now.

(** Whatever is raised inside the route comes out as an [HTTPException]
    of status 500. *)
Lemma analyze_token_failure_status (request : TokenAnalysisRequest)
    (log : list call) :
  match fst (route request log) with
  | Returned _ => True
  | Raised e => exists detail, e = HTTPException 500 detail
  end.
Proof.
  unfold route, analyze_token, try_except.
  match goal with
  | |- context [match ?body log with _ => _ end] =>
      destruct (body log) as [[response | e] log']
  end; simpl; [exact I |].
  eexists. reflexivity.
Qed.

(** C9 on a chain the route does not know: clients are built, nothing is
    fetched and no analysis is called; yet the rejection leaves the route
    as an [HTTPException] of status 500, the status of every other
    failure of the route, and not as the status 400 written in the
    source, because the constructor call with the keyword [message]
    raises [TypeError] and the handler of the route wraps it. *)
Theorem analyze_token_unsupported_chain (request : TokenAnalysisRequest)
    (log : list call) :
  chain_type request <> "solana"%string ->
  chain_type request <> "ethereum"%string ->
  chain_type request <> "cosmos"%string ->
  (exists (detail : string) (calls : list call),
     route request log = (Raised (HTTPException 500 detail), log ++ calls) /\
     existsb is_analysis calls = false) /\
  ((forall c, new_client c = Returned tt) ->
   route request log
   = (Raised (HTTPException 500
        "HTTPException.__init__() got an unexpected keyword argument 'message'"),
      log ++ [Construct "SolanaClient"; Construct "EthereumClient";
              Construct "CosmosClient"])) /\
  (forall (other : TokenAnalysisRequest) (log' : list call),
     match fst (route other log') with
     | Returned _ => True
     | Raised e => exists detail, e = HTTPException 500 detail
     end).
Proof.
  intros H1 H2 H3.
  apply String.eqb_neq in H1, H2, H3.
  assert (Hget : get clients (chain_type request) None = None)
    by (cbn [get clients]; rewrite H1, H2, H3; reflexivity).
  split; [| split].
  - unfold route, analyze_token, try_except, bind, perform.
    rewrite Hget.
    destruct (new_client SolanaClient) as [[] | e1].
    2:{ exists (str e1), [Construct "SolanaClient"]. split; reflexivity. }
    destruct (new_client EthereumClient) as [[] | e2].
    2:{ exists (str e2), [Construct "SolanaClient"; Construct "EthereumClient"].
        rewrite <- app_assoc. split; reflexivity. }
    destruct (new_client CosmosClient) as [[] | e3].
    2:{ exists (str e3), [Construct "SolanaClient"; Construct "EthereumClient";
                          Construct "CosmosClient"].
        rewrite <- !app_assoc. split; reflexivity. }
    eexists. exists [Construct "SolanaClient"; Construct "EthereumClient";
                     Construct "CosmosClient"].
    rewrite <- !app_assoc. split; reflexivity.
  - intros Hnew.
    unfold route, analyze_token, try_except, bind, perform.
    rewrite Hget, !Hnew, <- !app_assoc. reflexivity.
  - intros. apply analyze_token_failure_status.
Qed.

End Endpoint.

Lemma analyze_token_unsupported_chain_witness :
  ("polkadot" <> "solana" /\ "polkadot" <> "ethereum" /\
   "polkadot" <> "cosmos")%string /\
  forall (TokenData : Type) (metadata : TokenData -> Py.dict string)
         (series : TokenData -> PricePrediction.Dict)
         (get_token_data : App.client -> string -> Py.py TokenData)
         (new_risk_model : Py.py unit)
         (evaluate : TokenData -> Py.py (Py.dict string))
         (new_behavior_model : Py.py unit)
         (analyze : TokenData -> Py.py (list string))
         (lstm_weights : list (list float) -> float) (datetime_now : nat)
         (L : Libm),
    App.analyze_token metadata series (fun _ => Py.Returned tt)
      get_token_data new_risk_model evaluate new_behavior_model analyze
      lstm_weights datetime_now
      {| App.token_address := "0xabc"; App.chain_type := "polkadot";
         App.analysis_type := ["price"%string] |} []
    = (Py.Raised (Py.HTTPException 500
         "HTTPException.__init__() got an unexpected keyword argument 'message'"),
       [App.Construct "SolanaClient"; App.Construct "EthereumClient";
        App.Construct "CosmosClient"]).
Proof.
  split; [repeat split; discriminate |].
  intros.
  apply (proj1 (proj2
    (@analyze_token_unsupported_chain TokenData metadata series
       (fun _ => Py.Returned tt) get_token_data new_risk_model evaluate
       new_behavior_model analyze lstm_weights datetime_now L
       {| App.token_address := "0xabc"; App.chain_type := "polkadot";
          App.analysis_type := ["price"%string] |} []
       ltac:(discriminate) ltac:(discriminate) ltac:(discriminate)))).
  reflexivity.
Defined.

(** ** More on normalisation and the feature matrix *)

Section MoreFeatures.

Import Py PricePrediction Binary64 NumpyFacts.
Local Open Scope float_scope.

Lemma map_constant (A B : Type) (f : A -> B) (b : B) (l : list A) :
  (forall x, f x = b) -> map f l = repeat b (length l).
Proof.
  intros Hf. induction l as [| x l IH]; simpl; [reflexivity |].
  rewrite Hf, IH. reflexivity.
Qed.

(** One NaN in a series makes every normalised entry NaN: the mean is
    NaN, and so is each difference from it. *)
Theorem normalize_nan_spreads (data : Numpy.ndarray) :
  In nan data -> _normalize data = repeat nan (length data).
Proof.
  intros Hin. unfold _normalize.
  destruct (length data =? 0)%nat eqn:E.
  - apply Nat.eqb_eq in E. destruct data; [contradiction | discriminate].
  - rewrite (mean_In_nan data Hin). apply map_constant.
    intros x. rewrite sub_nan_r. apply div_nan_l.
Qed.

Lemma normalize_nan_spreads_witness :
  In nan [1; nan; 3] /\ _normalize [1; nan; 3] = [nan; nan; nan].
Proof.
  split; [right; left; reflexivity |].
  apply (normalize_nan_spreads [1; nan; 3]). right; left; reflexivity.
Defined.

(** A series of one value is normalised to a zero when the value is
    finite and to NaN otherwise.  The zero is [+0.0], but for the value
    [-0.0]: its mean is [+0.0], since the sum starts from [+0.0], and
    [-0.0 - 0.0] is [-0.0]. *)
Theorem normalize_single_value (x : float) :
  _normalize [x]
  = [if is_finite x
     then if Leibniz.eqb x neg_zero then neg_zero else 0
     else nan].
Proof.
  destruct (x =? 0) eqn:Hz.
  - destruct (eqb_zero_cases x Hz) as [-> | ->]; reflexivity.
  - unfold _normalize. cbn [length Nat.eqb map].
    rewrite std_singleton, (mean_singleton_nonzero x Hz).
    rewrite (nonzero_not_neg_zero x Hz).
    destruct (is_finite x) eqn:E.
    + rewrite (sub_self x E). reflexivity.
    + destruct (not_finite_cases x E) as [-> | [-> | ->]]; reflexivity.
Qed.

(** A record with none of the three series, or with all three empty, is
    mapped to the matrix of ten rows of three zeros. *)
Theorem extract_features_no_data (token_data : Dict) :
  get token_data "price_history" [] = [] ->
  get token_data "volume_history" [] = [] ->
  get token_data "liquidity_data" [] = [] ->
  _extract_features token_data = Returned [repeat [0; 0; 0] 10].
Proof.
  intros Hp Hv Hl. unfold _extract_features. rewrite Hp, Hv, Hl.
  reflexivity.
Qed.

Lemma extract_features_no_data_witness :
  _extract_features [] = Returned [repeat [0; 0; 0] 10] /\
  _extract_features [("volume_history"%string, [])]
  = Returned [repeat [0; 0; 0] 10].
Proof.
  split.
  - apply (extract_features_no_data []); reflexivity.
  - apply (extract_features_no_data [("volume_history"%string, [])]);
      reflexivity.
Defined.

(** The columns of a stacked matrix are the arrays it was built from. *)
Lemma rows3_columns (a b c : Numpy.ndarray) :
  length a = length b -> length b = length c ->
  map (fun row => nth 0 row 0) (Numpy.rows3 a b c) = a /\
  map (fun row => nth 1 row 0) (Numpy.rows3 a b c) = b /\
  map (fun row => nth 2 row 0) (Numpy.rows3 a b c) = c.
Proof.
  revert b c. induction a as [| x a IH]; intros [| y b] [| z c] Hab Hbc;
    simpl in *; try discriminate; [repeat split |].
  destruct (IH b c) as [Ha [Hb Hc]]; [congruence | congruence |].
  rewrite Ha, Hb, Hc. repeat split.
Qed.

(** The columns of the tensor made of a matrix are the columns of the
    matrix, rounded to binary32. *)
Lemma FloatTensor_column (k : nat) (m : list (list float)) :
  map (fun row => nth k row 0) (Torch.FloatTensor m)
  = map Torch.to_float32 (map (fun row => nth k row 0) m).
Proof.
  unfold Torch.FloatTensor. rewrite !map_map. apply map_ext.
  intros row. exact (map_nth Torch.to_float32 row 0 k).
Qed.

(** When extraction returns, the tensor is a batch of one, and its three
    columns are the normalised price, volume and liquidity series, in
    that order and in full, each entry rounded to binary32. *)
Theorem extract_features_columns (token_data : Dict)
    (features : Torch.tensor3) :
  _extract_features token_data = Returned features ->
  exists rows,
    features = [rows] /\
    map (fun row => nth 0 row 0) rows
    = map Torch.to_float32
        (_normalize (get token_data "price_history" [])) /\
    map (fun row => nth 1 row 0) rows
    = map Torch.to_float32
        (_normalize (get token_data "volume_history" [])) /\
    map (fun row => nth 2 row 0) rows
    = map Torch.to_float32
        (_normalize (get token_data "liquidity_data" [])).
Proof.
  unfold _extract_features, Numpy.column_stack3.
  destruct (_ && _)%bool eqn:E; simpl; [| discriminate].
  apply andb_prop in E. destruct E as [E1 E2].
  apply Nat.eqb_eq in E1, E2.
  intros [= <-]. eexists. split; [reflexivity |].
  rewrite !FloatTensor_column.
  destruct (rows3_columns _ _ _ E1 E2) as [Hp [Hv Hl]].
  rewrite Hp, Hv, Hl. repeat split.
Qed.

Lemma extract_features_columns_witness :
  _extract_features Samples.two_day_record
  = Returned [[[-1; -1; 0]; [1; 1; 0]]] /\
  _normalize [1; 2] = [-0.99999998000000034; 0.99999998000000034] /\
  exists rows,
    [[[-1; -1; 0]; [1; 1; 0]]] = [rows] /\
    map (fun row => nth 0 row 0) rows
    = map Torch.to_float32 (_normalize [1; 2]) /\
    map (fun row => nth 1 row 0) rows
    = map Torch.to_float32 (_normalize [10; 30]) /\
    map (fun row => nth 2 row 0) rows
    = map Torch.to_float32 (_normalize [5; 5]).
Proof.
  split; [reflexivity |]. split; [reflexivity |].
  apply (extract_features_columns Samples.two_day_record). reflexivity.
Defined.

End MoreFeatures.

(** ** More on the trend analysis *)

Section MoreTrends.

Import Py PricePrediction Binary64 NumpyFacts.
Local Open Scope float_scope.

Lemma last_n_app (A : Type) (k : nat) (older w : list A) :
  (k <= length w)%nat -> Numpy.last_n k (older ++ w) = Numpy.last_n k w.
Proof.
  intros Hk. unfold Numpy.last_n.
  rewrite length_app, skipn_app.
  replace (length older + length w - k - length older)%nat
    with (length w - k)%nat by lia.
  rewrite skipn_all2 by lia. reflexivity.
Qed.

Lemma price_history_head (ph : list float) (others : Dict) :
  get (("price_history"%string, ph) :: others) "price_history" [] = ph.
Proof. reflexivity. Qed.

(** The labels depend on the last five prices only: whatever older
    prices come before them, the answer is the same. *)
Theorem analyze_trends_last_five (older recent : list float)
    (others : Dict) :
  (5 <= length recent)%nat ->
  _analyze_trends (("price_history"%string, older ++ recent) :: others)
  = _analyze_trends (("price_history"%string, recent) :: others).
Proof.
  intros Hlen. unfold _analyze_trends. rewrite !price_history_head.
  rewrite (last_n_app float 5%nat older recent Hlen), length_app.
  replace (0 <? length older + length recent)%nat with true
    by (symmetry; apply Nat.ltb_lt; lia).
  replace (0 <? length recent)%nat with true
    by (symmetry; apply Nat.ltb_lt; lia).
  reflexivity.
Qed.

Lemma analyze_trends_last_five_witness :
  (5 <= length [5; 4; 3; 2; 1])%nat /\
  _analyze_trends [("price_history"%string, [1; 9; 7] ++ [5; 4; 3; 2; 1])]
  = _analyze_trends [("price_history"%string, [5; 4; 3; 2; 1])].
Proof.
  split; [simpl; lia |].
  apply (analyze_trends_last_five [1; 9; 7] [5; 4; 3; 2; 1] []).
  simpl; lia.
Defined.

(** A NaN among the last five prices is reported as a sideways
    movement: the mean difference is NaN, which is neither above nor
    below zero. *)
Theorem analyze_trends_nan_price (token_data : Dict) :
  In nan (Numpy.last_n 5 (get token_data "price_history" [])) ->
  _analyze_trends token_data = ["Sideways Movement"%string].
Proof.
  intros Hin. unfold _analyze_trends.
  set (ph := get token_data "price_history" []) in *.
  assert (Hne : (0 <? length ph)%nat = true).
  { apply Nat.ltb_lt. destruct ph; [contradiction | simpl; lia]. }
  rewrite Hne.
  assert (Hm : Numpy.mean (Numpy.diff (Numpy.last_n 5 ph)) = nan).
  { destruct (Numpy.last_n 5 ph) as [| x [| y w]] eqn:E.
    - contradiction.
    - reflexivity.
    - apply mean_In_nan, diff_In_nan; [simpl; lia | exact Hin]. }
  rewrite Hm. reflexivity.
Qed.

Lemma analyze_trends_nan_price_witness :
  In nan (Numpy.last_n 5 [1; 2; nan; 4]) /\
  _analyze_trends [("price_history"%string, [1; 2; nan; 4])]
  = ["Sideways Movement"%string].
Proof.
  split; [right; right; left; reflexivity |].
  apply (analyze_trends_nan_price
           [("price_history"%string, [1; 2; nan; 4])]).
  right; right; left; reflexivity.
Defined.

End MoreTrends.

(** ** More binary64 facts: signs of products, sums with an infinity *)

Module Binary64More.

Import Sign NonFinite Binary64.
Local Open Scope float_scope.

(** What rounding with a positive sign can give. *)
Lemma binary_round_aux_not_negative (m e : Z) (l : location) :
  SFnot_negative (binary_round_aux prec emax false m e l) = true.
Proof.
  unfold binary_round_aux.
  destruct (shr_fexp prec emax m e l) as [mrs' e'].
  destruct (shr_fexp prec emax _ e' loc_Exact) as [mrs'' e''].
  destruct (shr_m mrs''); try reflexivity.
  destruct (e'' <=? emax - prec)%Z; reflexivity.
Qed.

(** A square root times a positive finite factor is never below zero. *)
Lemma sqrt_mul_pos_not_below_zero (v c : float) (mc : positive) (ec : Z) :
  Prim2SF c = S754_finite false mc ec ->
  (sqrt v * c <? 0) = false.
Proof.
  intros Hc. rewrite FloatAxioms.ltb_spec, mul_spec, Hc.
  change (Prim2SF 0) with (S754_zero false).
  destruct (sqrt_class v) as [H | H].
  - rewrite H. reflexivity.
  - unfold fnonneg in H.
    destruct (Prim2SF (sqrt v)) as [s | [] | | [] m e]; try discriminate.
    + destruct s; reflexivity.
    + reflexivity.
    + unfold SF64mul, SFmul. cbn [xorb].
      assert (Hr := binary_round_aux_not_negative
                      (Zpos (m * mc)) (e + ec) loc_Exact).
      destruct (binary_round_aux prec emax false _ _ loc_Exact)
        as [s | [] | | [] ? ?]; try discriminate; reflexivity.
Qed.

(** Adding to NaN or to an infinity gives NaN or that infinity. *)
Lemma add_naninf_l (s : bool) (x y : float) :
  naninf s x = true -> naninf s (x + y) = true.
Proof.
  unfold naninf. rewrite add_spec.
  destruct (Prim2SF x) as [| sx | |]; try discriminate;
    destruct (Prim2SF y) as [| sy | |]; try reflexivity;
    destruct s, sx; try discriminate; try reflexivity;
    destruct sy; reflexivity.
Qed.

Lemma add_naninf_r (s : bool) (x y : float) :
  naninf s y = true -> naninf s (x + y) = true.
Proof.
  unfold naninf. rewrite add_spec.
  destruct (Prim2SF y) as [| sy | |]; try discriminate;
    destruct (Prim2SF x) as [| sx | |]; try reflexivity;
    destruct s, sy; try discriminate; try reflexivity;
    destruct sx; reflexivity.
Qed.

(** Dividing it by a positive value too. *)
Lemma div_naninf_pos (s : bool) (x y : float) :
  naninf s x = true -> fpos y = true -> naninf s (x / y) = true.
Proof.
  unfold naninf, fpos. rewrite div_spec.
  destruct (Prim2SF x) as [| sx | |]; try discriminate;
    destruct (Prim2SF y) as [| [] | | [] ? ?]; try discriminate;
    try reflexivity.
  destruct s, sx; try discriminate; reflexivity.
Qed.

(** An infinity minus NaN or minus itself is NaN. *)
Lemma sub_inf_naninf (s : bool) (x m : float) :
  Prim2SF x = S754_infinity s -> naninf s m = true -> x - m = nan.
Proof.
  unfold naninf. intros Hx Hm. apply Prim2SF_inj. rewrite sub_spec, Hx.
  change (Prim2SF nan) with S754_nan.
  destruct (Prim2SF m) as [| sm | |]; try discriminate; [| reflexivity].
  destruct s, sm; try discriminate; reflexivity.
Qed.

(** A difference with an operand that is not finite is not finite. *)
Lemma sub_not_finite_l (x y : float) :
  is_finite x = false -> is_finite (x - y) = false.
Proof.
  rewrite !is_finite_spec, sub_spec.
  destruct (Prim2SF x) as [| sx | |]; try discriminate; intros _;
    destruct (Prim2SF y) as [| sy | |]; try reflexivity.
  destruct sx, sy; reflexivity.
Qed.

Lemma sub_not_finite_r (x y : float) :
  is_finite y = false -> is_finite (x - y) = false.
Proof.
  rewrite !is_finite_spec, sub_spec.
  destruct (Prim2SF y) as [| sy | |]; try discriminate; intros _;
    destruct (Prim2SF x) as [| sx | |]; try reflexivity.
  destruct sx, sy; reflexivity.
Qed.

(** At most zero means below zero or equal to it. *)
Lemma leb_zero_cases (p : float) :
  (p <=? 0) = true -> (p <? 0) = true \/ (p =? 0) = true.
Proof.
  rewrite FloatAxioms.leb_spec, FloatAxioms.ltb_spec, FloatAxioms.eqb_spec.
  unfold SFleb, SFltb, SFeqb.
  destruct (SFcompare (Prim2SF p) (Prim2SF 0)) as [[] |];
    try discriminate; auto.
Qed.

End Binary64More.

(** ** More on the volatility *)

Section MoreVolatility.

Import Py PricePrediction Sign NonFinite Binary64 Binary64More NumpyFacts.
Local Open Scope float_scope.

Context `{Libm}.

(** The volatility index is never below zero: it is [0.0], or a square
    root times [sqrt(365)], or NaN. *)
Theorem volatility_not_below_zero (token_data : Dict) :
  (_calculate_volatility token_data <? 0) = false.
Proof.
  unfold _calculate_volatility.
  destruct (1 <? length _)%nat; [| reflexivity].
  unfold Numpy.std.
  eapply sqrt_mul_pos_not_below_zero. reflexivity.
Qed.

Lemma diff_repeat (c : float) (n : nat) :
  Numpy.diff (repeat c (S (S n))) = repeat (c - c) (S n).
Proof.
  induction n as [| n IH]; [reflexivity |].
  change (Numpy.diff (repeat c (S (S (S n)))))
    with ((c - c) :: Numpy.diff (repeat c (S (S n)))).
  rewrite IH. reflexivity.
Qed.

Lemma mean_zeros (n : nat) : Numpy.mean (repeat 0 (S n)) = 0.
Proof.
  unfold Numpy.mean. rewrite sum_zeros, repeat_length.
  apply zero_div_pos, float_of_nat_pos.
Qed.

(** A history that repeats one price, two times or more, has volatility
    [+0.0] when the logarithm of the price is finite, and NaN when it is
    not. *)
Theorem volatility_flat_history (p : float) (n : nat) (others : Dict) :
  _calculate_volatility
    (("price_history"%string, repeat p (S (S n))) :: others)
  = if is_finite (Numpy.log1 p) then 0 else nan.
Proof.
  unfold _calculate_volatility. cbn [get String.eqb Ascii.eqb Bool.eqb].
  rewrite repeat_length. cbn [Nat.ltb Nat.leb].
  unfold Numpy.log. rewrite map_repeat, diff_repeat.
  destruct (is_finite (Numpy.log1 p)) eqn:E.
  - rewrite (sub_self _ E).
    rewrite (std_constant 0 n eq_refl (mean_zeros n)). reflexivity.
  - assert (Hnan : Numpy.log1 p - Numpy.log1 p = nan)
      by (destruct (not_finite_cases _ E) as [-> | [-> | ->]];
          reflexivity).
    rewrite Hnan, std_In_nan; [reflexivity | left; reflexivity].
Qed.

(** Sums and means that meet NaN or an infinity. *)
Lemma sum_In_naninf (s : bool) (x : float) (a : Numpy.ndarray) :
  In x a -> naninf s x = true -> naninf s (Numpy.sum a) = true.
Proof.
  intros Hin Hx.
  apply (sum_absorbed (fun y => naninf s y = true)).
  - intros y z Hy. apply add_naninf_l, Hy.
  - intros y z Hz. apply add_naninf_r, Hz.
  - apply Exists_exists. exists x. split; assumption.
Qed.

Lemma mean_In_naninf (s : bool) (x : float) (a : Numpy.ndarray) :
  In x a -> naninf s x = true -> naninf s (Numpy.mean a) = true.
Proof.
  intros Hin Hx. unfold Numpy.mean.
  destruct a as [| y rest]; [contradiction |].
  apply div_naninf_pos; [| apply float_of_nat_pos].
  apply (sum_In_naninf s x); assumption.
Qed.

(** A value that is not finite makes the deviation NaN. *)
Lemma std_In_not_finite (x : float) (a : Numpy.ndarray) :
  In x a -> is_finite x = false -> Numpy.std a = nan.
Proof.
  intros Hin Hx. rewrite is_finite_spec in Hx.
  destruct (Prim2SF x) as [| s | |] eqn:E; try discriminate.
  - unfold Numpy.std.
    assert (Hm : naninf s (Numpy.mean a) = true).
    { apply (mean_In_naninf s x); [exact Hin |].
      unfold naninf. rewrite E. simpl. destruct s; reflexivity. }
    rewrite sum_In_nan; [rewrite div_nan_l; reflexivity |].
    rewrite map_map. apply in_map_iff. exists x. split; [| exact Hin].
    rewrite (sub_inf_naninf s x _ E Hm). reflexivity.
  - apply std_In_nan. apply of_SF in E. rewrite E in Hin. exact Hin.
Qed.

Lemma diff_In_not_finite (x : float) (a : Numpy.ndarray) :
  (2 <= length a)%nat -> In x a -> is_finite x = false ->
  exists y, In y (Numpy.diff a) /\ is_finite y = false.
Proof.
  induction a as [| u [| v rest] IH]; simpl length; intros Hlen Hin Hx;
    try lia.
  change (Numpy.diff (u :: v :: rest))
    with ((v - u) :: Numpy.diff (v :: rest)).
  destruct Hin as [-> | [-> | Hin]].
  - exists (v - x). split; [left; reflexivity |].
    apply sub_not_finite_r, Hx.
  - exists (x - u). split; [left; reflexivity |].
    apply sub_not_finite_l, Hx.
  - destruct IH as [y [Hy Hfin]]; [| right; exact Hin | exact Hx |].
    + destruct rest; [contradiction | simpl; lia].
    + exists y. split; [right; exact Hy | exact Hfin].
Qed.

(** The logarithm of a price that is zero or below is not finite. *)
Lemma log1_nonpositive (p : float) :
  (p <=? 0) = true -> is_finite (Numpy.log1 p) = false.
Proof.
  intros Hp. unfold Numpy.log1.
  destruct (is_nan p); [reflexivity |].
  destruct (leb_zero_cases p Hp) as [-> | Hz]; [reflexivity |].
  destruct (p <? 0); [reflexivity |]. rewrite Hz. reflexivity.
Qed.

(** A price that is zero or negative, anywhere in a history of two
    prices or more, makes the volatility NaN. *)
Theorem volatility_nonpositive_price (token_data : Dict) :
  let price_history := get token_data "price_history" [] in
  (2 <= length price_history)%nat ->
  existsb (fun p => p <=? 0) price_history = true ->
  _calculate_volatility token_data = nan.
Proof.
  cbv zeta. intros Hlen Hex. unfold _calculate_volatility.
  replace (1 <? length _)%nat with true
    by (symmetry; apply Nat.ltb_lt; lia).
  apply existsb_exists in Hex. destruct Hex as [p [Hin Hp]].
  destruct (diff_In_not_finite (Numpy.log1 p)
              (Numpy.log (get token_data "price_history" [])))
    as [y [Hy Hfin]].
  - unfold Numpy.log. rewrite length_map. exact Hlen.
  - unfold Numpy.log. apply in_map. exact Hin.
  - apply log1_nonpositive, Hp.
  - rewrite (std_In_not_finite y _ Hy Hfin). reflexivity.
Qed.

End MoreVolatility.

Lemma volatility_nonpositive_price_witness :
  ((2 <= length [1; 0; 2]%float)%nat /\
   existsb (fun p => p <=? 0)%float [1; 0; 2]%float = true) /\
  forall L : Libm,
    PricePrediction._calculate_volatility
      [("price_history"%string, [1; 0; 2]%float)] = nan.
Proof.
  split; [split; [simpl; lia | reflexivity] |].
  intros L.
  apply (@volatility_nonpositive_price L
           [("price_history"%string, [1; 0; 2]%float)]).
  - simpl; lia.
  - reflexivity.
Defined.

(** ** More on the prediction boundary and on the route *)

Section MorePredict.

Import Py PricePrediction.

Context `{Libm}.

(** The model the constructor builds never delivers a prediction: for
    every record and whatever the weights, [predict] returns the error
    dictionary, and the exception behind it is the [RuntimeError] of the
    forward pass (three feature columns against [input_size=10]) or the
    [ValueError] of stacking columns of different lengths. *)
Theorem predict_constructed_model_error
    (weights : list (list float) -> float) (token_data : Dict) :
  exists e : exn,
    predict (__init__ weights) token_data
    = Returned [("error"%string, VStr "Price prediction failed");
                ("details"%string, VStr (str e))] /\
    ((exists msg, e = RuntimeError msg) \/ (exists msg, e = ValueError msg)).
Proof.
  unfold predict, _extract_features, Numpy.column_stack3.
  destruct (_ && _)%bool; simpl.
  2:{ eexists (ValueError _). split; [reflexivity |].
      right. eexists. reflexivity. }
  unfold forward, size_last, Torch.unsqueeze0. simpl hd.
  destruct (Numpy.rows3 _ _ _) as [| row rows] eqn:E; simpl.
  { eexists (RuntimeError _). split; [reflexivity |].
    left. eexists. reflexivity. }
  assert (Hrow : length row = 3%nat).
  { destruct (_normalize (get token_data "price_history" [])),
             (_normalize (get token_data "volume_history" [])),
             (_normalize (get token_data "liquidity_data" []));
      simpl in E; try discriminate.
    injection E as <- _. reflexivity. }
  rewrite length_map, Hrow. simpl.
  eexists (RuntimeError _). split; [reflexivity |].
  left. eexists. reflexivity.
Qed.

End MorePredict.

Section MoreEndpoint.

Import Py App.

Variable TokenData : Type.
Variable metadata : TokenData -> dict string.
Variable series : TokenData -> PricePrediction.Dict.
Variable new_client : client -> py unit.
Variable get_token_data : client -> string -> py TokenData.
Variable new_risk_model : py unit.
Variable evaluate : TokenData -> py (dict string).
Variable new_behavior_model : py unit.
Variable analyze : TokenData -> py (list string).
Variable lstm_weights : list (list float) -> float.
Variable datetime_now : nat.
Context `{Libm}.

Let route := analyze_token metadata series new_client get_token_data
               new_risk_model evaluate new_behavior_model analyze
               lstm_weights datetime_now.

(** The calls up to the fetch of the token data. *)
Let fetch_calls (c : client) (address : string) : list call :=
  [Construct "SolanaClient"; Construct "EthereumClient";
   Construct "CosmosClient"; GetTokenData c address].

(** The calls that build the three models. *)
Let model_calls : list call :=
  [Construct "PricePredictionModel"; Construct "RiskAssessmentModel";
   Construct "BehavioralAnalysisModel"].

(** For a known chain, when the clients, the data and the two sibling
    models come back, the route returns the response: the metadata of the
    token, what the siblings returned, the time, and, as
    [market_performance], the error dictionary of the price model, which
    never stops the route. *)
Theorem analyze_token_response (request : TokenAnalysisRequest)
    (log : list call) (c : client) (token_data : TokenData)
    (risk : dict string) (recs : list string) :
  get clients (chain_type request) None = Some c ->
  (forall k, new_client k = Returned tt) ->
  get_token_data c (token_address request) = Returned token_data ->
  new_risk_model = Returned tt ->
  new_behavior_model = Returned tt ->
  evaluate token_data = Returned risk ->
  analyze token_data = Returned recs ->
  exists details : string,
    route request log
    = (Returned
         {| token_metadata := metadata token_data;
            market_performance :=
              [("error"%string, VStr "Price prediction failed");
               ("details"%string, VStr details)];
            risk_assessment := risk;
            recommendations := recs;
            timestamp := datetime_now |},
       log ++ fetch_calls c (token_address request) ++ model_calls
           ++ [Predict; Evaluate; Analyze; Now]).
Proof.
  intros Hc Hnew Hdata Hrisk Hbeh Heval Hana.
  destruct (@predict_constructed_model _ lstm_weights (series token_data))
    as [details Hd].
  exists details.
  unfold route, analyze_token, try_except, bind, perform.
  rewrite !Hnew, Hc, Hdata, Hrisk, Hbeh, Hd, Heval, Hana.
  unfold ret, fetch_calls, model_calls. simpl.
  rewrite <- !app_assoc. reflexivity.
Qed.

(** When the data provider raises, the route answers with status 500 and
    the text of that exception; no model has been built or called. *)
Theorem analyze_token_data_unavailable (request : TokenAnalysisRequest)
    (log : list call) (c : client) (e : exn) :
  get clients (chain_type request) None = Some c ->
  (forall k, new_client k = Returned tt) ->
  get_token_data c (token_address request) = Raised e ->
  route request log
  = (Raised (HTTPException 500 (str e)),
     log ++ fetch_calls c (token_address request)).
Proof.
  intros Hc Hnew Hdata.
  unfold route, analyze_token, try_except, bind, perform.
  rewrite !Hnew, Hc, Hdata. unfold fetch_calls. simpl.
  rewrite <- !app_assoc. reflexivity.
Qed.

(** When the risk model or the behaviour model raises, the whole request
    fails with status 500 and the prediction already made is dropped;
    after a failure of the risk model the behaviour model is not called
    at all. *)
Theorem analyze_token_sibling_failure (request : TokenAnalysisRequest)
    (log : list call) (c : client) (token_data : TokenData) (e : exn) :
  get clients (chain_type request) None = Some c ->
  (forall k, new_client k = Returned tt) ->
  get_token_data c (token_address request) = Returned token_data ->
  new_risk_model = Returned tt ->
  new_behavior_model = Returned tt ->
  (evaluate token_data = Raised e ->
   route request log
   = (Raised (HTTPException 500 (str e)),
      log ++ fetch_calls c (token_address request) ++ model_calls
          ++ [Predict; Evaluate])) /\
  (forall risk, evaluate token_data = Returned risk ->
   analyze token_data = Raised e ->
   route request log
   = (Raised (HTTPException 500 (str e)),
      log ++ fetch_calls c (token_address request) ++ model_calls
          ++ [Predict; Evaluate; Analyze])).
Proof.
  intros Hc Hnew Hdata Hrisk Hbeh.
  destruct (@predict_constructed_model _ lstm_weights (series token_data))
    as [details Hd].
  split; [intros Heval | intros risk Heval Hana];
    unfold route, analyze_token, try_except, bind, perform;
    rewrite !Hnew, Hc, Hdata, Hrisk, Hbeh, Hd, Heval; [| rewrite Hana];
    unfold fetch_calls, model_calls; simpl;
    rewrite <- !app_assoc; reflexivity.
Qed.

End MoreEndpoint.

(** A response means that nothing failed on the way: the chain is known,
    the clients, the data and both sibling models came back, and the
    response carries what they returned. *)
Theorem analyze_token_returns_only_if
    (TokenData : Type) (metadata : TokenData -> Py.dict string)
    (series : TokenData -> PricePrediction.Dict)
    (new_client : App.client -> Py.py unit)
    (get_token_data : App.client -> string -> Py.py TokenData)
    (new_risk_model : Py.py unit)
    (evaluate : TokenData -> Py.py (Py.dict string))
    (new_behavior_model : Py.py unit)
    (analyze : TokenData -> Py.py (list string))
    (lstm_weights : list (list float) -> float) (datetime_now : nat)
    (L : Libm) (request : App.TokenAnalysisRequest)
    (log log' : list App.call) (response : App.TokenAnalysisResponse) :
  App.analyze_token metadata series new_client get_token_data
    new_risk_model evaluate new_behavior_model analyze lstm_weights
    datetime_now request log
  = (Py.Returned response, log') ->
  exists (c : App.client) (token_data : TokenData),
    Py.get App.clients (App.chain_type request) None = Some c /\
    (forall k, new_client k = Py.Returned tt) /\
    get_token_data c (App.token_address request) = Py.Returned token_data /\
    new_risk_model = Py.Returned tt /\
    new_behavior_model = Py.Returned tt /\
    evaluate token_data = Py.Returned (App.risk_assessment response) /\
    analyze token_data = Py.Returned (App.recommendations response) /\
    App.token_metadata response = metadata token_data /\
    App.timestamp response = datetime_now.
Proof.
  unfold App.analyze_token, App.try_except, App.bind, App.perform.
  destruct (new_client App.SolanaClient) as [[] | e1] eqn:N1;
    [| discriminate].
  destruct (new_client App.EthereumClient) as [[] | e2] eqn:N2;
    [| discriminate].
  destruct (new_client App.CosmosClient) as [[] | e3] eqn:N3;
    [| discriminate].
  destruct (Py.get App.clients (App.chain_type request) None)
    as [c |] eqn:Hc; [| discriminate].
  destruct (get_token_data c (App.token_address request))
    as [token_data | e4] eqn:Hdata; [| discriminate].
  destruct new_risk_model as [[] | e5]; [| discriminate].
  destruct new_behavior_model as [[] | e6]; [| discriminate].
  destruct (PricePrediction.predict _ _) as [market | e7];
    [| discriminate].
  destruct (evaluate token_data) as [risk | e8] eqn:Heval;
    [| discriminate].
  destruct (analyze token_data) as [recs | e9] eqn:Hana;
    [| discriminate].
  unfold App.ret. intros [= <- _].
  exists c, token_data. repeat split; try assumption.
  intros []; assumption.
Qed.

Lemma analyze_token_returns_only_if_witness :
  Py.get App.clients "ethereum" None = Some App.EthereumClient /\
  forall L : Libm,
  exists (c : App.client) (token_data : Stubs.token),
    Py.get App.clients "ethereum" None = Some c /\
    (forall k, Stubs.clients_ok k = Py.Returned tt) /\
    Stubs.provider_ok c "0xabc" = Py.Returned token_data /\
    Py.Returned tt = Py.Returned tt /\
    Py.Returned tt = Py.Returned tt /\
    Stubs.risk_ok token_data
    = Py.Returned [("level"%string, "low"%string)] /\
    Stubs.behavior_ok token_data = Py.Returned ["hold"%string] /\
    [("symbol"%string, "LOOK"%string)] = Stubs.token_metadata token_data /\
    42 = 42.
Proof.
  split; [reflexivity |]. intros L.
  refine (@analyze_token_returns_only_if Stubs.token Stubs.token_metadata
            Stubs.token_series Stubs.clients_ok Stubs.provider_ok
            (Py.Returned tt) Stubs.risk_ok (Py.Returned tt)
            Stubs.behavior_ok Stubs.weights 42 L
            Stubs.ethereum_request []
            ([App.Construct "SolanaClient"; App.Construct "EthereumClient";
              App.Construct "CosmosClient";
              App.GetTokenData App.EthereumClient "0xabc";
              App.Construct "PricePredictionModel";
              App.Construct "RiskAssessmentModel";
              App.Construct "BehavioralAnalysisModel";
              App.Predict; App.Evaluate; App.Analyze; App.Now])
            {| App.token_metadata := [("symbol"%string, "LOOK"%string)];
               App.market_performance :=
                 [("error"%string, Py.VStr "Price prediction failed");
                  ("details"%string,
                   Py.VStr "input.size(-1) must be equal to input_size")];
               App.risk_assessment := [("level"%string, "low"%string)];
               App.recommendations := ["hold"%string];
               App.timestamp := 42 |} _).
  reflexivity.
Defined.

Lemma analyze_token_response_witness :
  Py.get App.clients "ethereum" None = Some App.EthereumClient /\
  forall (L : Libm) (log : list App.call),
  exists details : string,
    App.analyze_token Stubs.token_metadata Stubs.token_series
      Stubs.clients_ok Stubs.provider_ok (Py.Returned tt) Stubs.risk_ok
      (Py.Returned tt) Stubs.behavior_ok Stubs.weights 42
      Stubs.ethereum_request log
    = (Py.Returned
         {| App.token_metadata := [("symbol"%string, "LOOK"%string)];
            App.market_performance :=
              [("error"%string, Py.VStr "Price prediction failed");
               ("details"%string, Py.VStr details)];
            App.risk_assessment := [("level"%string, "low"%string)];
            App.recommendations := ["hold"%string];
            App.timestamp := 42 |},
       log ++ [App.Construct "SolanaClient"; App.Construct "EthereumClient";
               App.Construct "CosmosClient";
               App.GetTokenData App.EthereumClient "0xabc";
               App.Construct "PricePredictionModel";
               App.Construct "RiskAssessmentModel";
               App.Construct "BehavioralAnalysisModel";
               App.Predict; App.Evaluate; App.Analyze; App.Now]).
Proof.
  split; [reflexivity |]. intros L log.
  apply (@analyze_token_response Stubs.token Stubs.token_metadata
           Stubs.token_series Stubs.clients_ok Stubs.provider_ok
           (Py.Returned tt) Stubs.risk_ok (Py.Returned tt)
           Stubs.behavior_ok Stubs.weights 42 L
           Stubs.ethereum_request log App.EthereumClient tt
           [("level"%string, "low"%string)] ["hold"%string]);
    reflexivity.
Defined.

Lemma analyze_token_data_unavailable_witness :
  Py.get App.clients "ethereum" None = Some App.EthereumClient /\
  forall (L : Libm) (log : list App.call),
    App.analyze_token Stubs.token_metadata Stubs.token_series
      Stubs.clients_ok Stubs.provider_down (Py.Returned tt) Stubs.risk_ok
      (Py.Returned tt) Stubs.behavior_ok Stubs.weights 42
      Stubs.ethereum_request log
    = (Py.Raised (Py.HTTPException 500 "rpc endpoint unreachable"),
       log ++ [App.Construct "SolanaClient"; App.Construct "EthereumClient";
               App.Construct "CosmosClient";
               App.GetTokenData App.EthereumClient "0xabc"]).
Proof.
  split; [reflexivity |]. intros L log.
  apply (@analyze_token_data_unavailable Stubs.token Stubs.token_metadata
           Stubs.token_series Stubs.clients_ok Stubs.provider_down
           (Py.Returned tt) Stubs.risk_ok (Py.Returned tt)
           Stubs.behavior_ok Stubs.weights 42 L
           Stubs.ethereum_request log App.EthereumClient
           (Py.OtherException "ConnectionError" "rpc endpoint unreachable"));
    reflexivity.
Defined.

Lemma analyze_token_sibling_failure_witness :
  (forall (L : Libm) (log : list App.call),
     App.analyze_token Stubs.token_metadata Stubs.token_series
       Stubs.clients_ok Stubs.provider_ok (Py.Returned tt) Stubs.risk_down
       (Py.Returned tt) Stubs.behavior_ok Stubs.weights 42
       Stubs.ethereum_request log
     = (Py.Raised (Py.HTTPException 500 "no holders"),
        log ++ [App.Construct "SolanaClient"; App.Construct "EthereumClient";
                App.Construct "CosmosClient";
                App.GetTokenData App.EthereumClient "0xabc";
                App.Construct "PricePredictionModel";
                App.Construct "RiskAssessmentModel";
                App.Construct "BehavioralAnalysisModel";
                App.Predict; App.Evaluate])) /\
  (forall (L : Libm) (log : list App.call),
     App.analyze_token Stubs.token_metadata Stubs.token_series
       Stubs.clients_ok Stubs.provider_ok (Py.Returned tt) Stubs.risk_ok
       (Py.Returned tt) Stubs.behavior_down Stubs.weights 42
       Stubs.ethereum_request log
     = (Py.Raised (Py.HTTPException 500 "no transfers"),
        log ++ [App.Construct "SolanaClient"; App.Construct "EthereumClient";
                App.Construct "CosmosClient";
                App.GetTokenData App.EthereumClient "0xabc";
                App.Construct "PricePredictionModel";
                App.Construct "RiskAssessmentModel";
                App.Construct "BehavioralAnalysisModel";
                App.Predict; App.Evaluate; App.Analyze])).
Proof.
  split; intros L log.
  - apply (proj1 (@analyze_token_sibling_failure Stubs.token
             Stubs.token_metadata Stubs.token_series Stubs.clients_ok
             Stubs.provider_ok (Py.Returned tt) Stubs.risk_down
             (Py.Returned tt) Stubs.behavior_ok Stubs.weights 42 L
             Stubs.ethereum_request log App.EthereumClient tt
             (Py.ValueError "no holders")
             eq_refl (fun _ => eq_refl) eq_refl eq_refl eq_refl)).
    reflexivity.
  - apply (proj2 (@analyze_token_sibling_failure Stubs.token
             Stubs.token_metadata Stubs.token_series Stubs.clients_ok
             Stubs.provider_ok (Py.Returned tt) Stubs.risk_ok
             (Py.Returned tt) Stubs.behavior_down Stubs.weights 42 L
             Stubs.ethereum_request log App.EthereumClient tt
             (Py.ValueError "no transfers")
             eq_refl (fun _ => eq_refl) eq_refl eq_refl eq_refl)
           [("level"%string, "low"%string)]);
      reflexivity.
Defined.

(** ** The chains on offer *)

Section Chains.

Import Py.

(** The two routes agree on the chains: an id is listed as active by
    [get_supported_chains] exactly when [analyze_token] has a client for
    it; [polkadot], listed as coming soon, has none. *)
Theorem active_chains_have_clients (chain : string) :
  In chain Routes.active_chains
  <-> exists c : App.client, get App.clients chain None = Some c.
Proof.
  split.
  - intros [<- | [<- | [<- | []]]]; eexists; reflexivity.
  - intros [c Hc]. unfold App.clients in Hc. cbn [get] in Hc.
    destruct (String.eqb chain "solana") eqn:E1;
      [apply String.eqb_eq in E1; subst; left; reflexivity |].
    destruct (String.eqb chain "ethereum") eqn:E2;
      [apply String.eqb_eq in E2; subst; right; left; reflexivity |].
    destruct (String.eqb chain "cosmos") eqn:E3;
      [apply String.eqb_eq in E3; subst; right; right; left; reflexivity |].
    discriminate.
Qed.

Lemma active_chains_have_clients_witness :
  In "cosmos"%string Routes.active_chains /\
  exists c : App.client, get App.clients "solana" None = Some c.
Proof.
  split.
  - apply (proj2 (active_chains_have_clients "cosmos")).
    exists App.CosmosClient. reflexivity.
  - apply (proj1 (active_chains_have_clients "solana")).
    left. reflexivity.
Defined.

End Chains.

(** ** When a prediction is delivered *)

Section Delivered.

Import Py PricePrediction.

Context `{Libm}.

Let column (token_data : Dict) (key : string) : nat :=
  length (_normalize (get token_data key [])).

(** [predict] delivers a prediction dictionary exactly when the network
    takes three features per row and the three normalised columns have
    one length; the dictionary then holds the network's scalar for the
    feature rows, and the trends and the volatility of the record, which
    do not depend on the network. *)
Theorem predict_delivers_iff (self : PricePredictionModel)
    (token_data : Dict) :
  ((exists (p c v : float) (trends : list string),
      predict self token_data
      = Returned [("predicted_price"%string, VFloat p);
                  ("confidence_score"%string, VFloat c);
                  ("price_trends"%string, VStrList trends);
                  ("volatility_index"%string, VFloat v)])
   <-> (input_size (model self) = 3%nat /\
        column token_data "price_history" = column token_data "volume_history" /\
        column token_data "volume_history" = column token_data "liquidity_data"))
  /\
  (forall (p c v : float) (trends : list string),
     predict self token_data
     = Returned [("predicted_price"%string, VFloat p);
                 ("confidence_score"%string, VFloat c);
                 ("price_trends"%string, VStrList trends);
                 ("volatility_index"%string, VFloat v)] ->
     trends = _analyze_trends token_data /\
     v = _calculate_volatility token_data /\
     exists rows, _extract_features token_data = Returned [rows] /\
                  p = lstm_fc (model self) rows).
Proof.
  unfold column.
  set (a := _normalize (get token_data "price_history" [])).
  set (b := _normalize (get token_data "volume_history" [])).
  set (d := _normalize (get token_data "liquidity_data" [])).
  assert (Hfeat : _extract_features token_data
                  = if ((length a =? length b)%nat
                        && (length b =? length d)%nat)%bool
                    then Returned [Torch.FloatTensor (Numpy.rows3 a b d)]
                    else Raised (ValueError
           "all the input array dimensions except for the concatenation axis must match exactly")).
  { unfold _extract_features, Numpy.column_stack3. fold a b d.
    destruct (_ && _)%bool; reflexivity. }
  assert (Hwidth : length a = length b -> length b = length d ->
                   size_last [Torch.FloatTensor (Numpy.rows3 a b d)] = 3%nat).
  { intros Hab Hbd. unfold size_last. simpl hd. rewrite FloatTensor_width.
    apply rows3_width; [apply normalize_nonempty | assumption..]. }
  split; [split |].
  - intros [p [c [v [trends Hp]]]]. revert Hp. unfold predict.
    rewrite Hfeat.
    destruct ((length a =? length b)%nat && (length b =? length d)%nat)%bool
      eqn:E; simpl; [| discriminate].
    apply andb_prop in E. destruct E as [E1 E2].
    apply Nat.eqb_eq in E1, E2.
    unfold forward. rewrite (Hwidth E1 E2).
    destruct (3 =? input_size (model self))%nat eqn:E3; simpl;
      [| discriminate].
    apply Nat.eqb_eq in E3. intros _. auto.
  - intros [Hin [Hab Hbd]]. unfold predict. rewrite Hfeat.
    rewrite Hab, Hbd, !Nat.eqb_refl. simpl.
    unfold forward. rewrite (Hwidth Hab Hbd), Hin. simpl.
    do 4 eexists. reflexivity.
  - intros p c v trends. unfold predict. rewrite Hfeat.
    destruct ((length a =? length b)%nat && (length b =? length d)%nat)%bool;
      simpl; [| discriminate].
    unfold forward.
    destruct (size_last [Torch.FloatTensor (Numpy.rows3 a b d)] =? input_size (model self))%nat;
      simpl; [| discriminate].
    intros [= <- _ <- <-]. repeat split.
    eexists. split; reflexivity.
Qed.

End Delivered.

Lemma predict_delivers_iff_witness :
  PricePrediction.input_size Samples.three_feature_lstm = 3%nat /\
  forall L : Libm,
  exists (p c v : float) (trends : list string),
    PricePrediction.predict
      {| PricePrediction.model := Samples.three_feature_lstm |}
      Samples.short_record
    = Py.Returned [("predicted_price"%string, Py.VFloat p);
                   ("confidence_score"%string, Py.VFloat c);
                   ("price_trends"%string, Py.VStrList trends);
                   ("volatility_index"%string, Py.VFloat v)].
Proof.
  split; [reflexivity |]. intros L.
  apply (proj2 (proj1 (@predict_delivers_iff L
           {| PricePrediction.model := Samples.three_feature_lstm |}
           Samples.short_record))).
  repeat split.
Defined.
